(** * video-ai-streamer: the transcript pipeline of [server/index.js]

    A shallow embedding of the Express handlers of [server/index.js]
    ([/transcribe], [/upload-url], [/upload-video], [/ask]) and of the
    string transforms they contain, followed by the properties of the
    specification that can be settled on that code.

    JavaScript strings are sequences of UTF-16 code units; request bodies
    and responses are JSON values; the handlers are written in a small
    state-and-exception monad over the process state (the global
    transcript, the scratch directory, the console). *)

From Stdlib Require Import List Bool ZArith NArith Ascii String Lia Btauto.
From Stdlib Require Import Numbers.DecimalString Numbers.DecimalPos.
Import ListNotations.

Set Warnings "-register-all".

(** ** JavaScript strings *)

Module Js.

(** A UTF-16 code unit. *)
Definition char16 := N.
(** A JavaScript string. *)
Definition jsstring := list char16.

(** An ASCII literal of the source, as a JavaScript string. *)
Definition lit (s : string) : jsstring :=
  map N_of_ascii (list_ascii_of_string s).
Arguments lit s%_string.

Definition NL : char16 := 10%N.

Fixpoint str_eqb (a b : jsstring) : bool :=
  match a, b with
  | [], [] => true
  | x :: a', y :: b' => N.eqb x y && str_eqb a' b'
  | _, _ => false
  end.

(** [s.startsWith(p)] *)
Fixpoint startsWith (s p : jsstring) : bool :=
  match p, s with
  | [], _ => true
  | _ :: _, [] => false
  | y :: p', x :: s' => N.eqb x y && startsWith s' p'
  end.

(** [s.endsWith(p)] *)
Definition endsWith (s p : jsstring) : bool :=
  startsWith (rev s) (rev p).

(** [s.split(sep)] for a separator of one code unit, as in [split('\n')].
    The empty string splits into one empty line. *)
Fixpoint split (sep : char16) (s : jsstring) : list jsstring :=
  match s with
  | [] => [[]]
  | c :: s' =>
      if N.eqb c sep then [] :: split sep s'
      else match split sep s' with
           | [] => [[c]]
           | l :: ls => (c :: l) :: ls
           end
  end.

(** [ls.join(sep)] on an array of strings. *)
Fixpoint join (sep : jsstring) (ls : list jsstring) : jsstring :=
  match ls with
  | [] => []
  | l :: ls' =>
      match ls' with
      | [] => l
      | _ :: _ => l ++ sep ++ join sep ls'
      end
  end.

(** ECMAScript WhiteSpace and LineTerminator code units: what
    [String.prototype.trim] strips. *)
Definition isWhiteSpace (c : char16) : bool :=
  existsb (N.eqb c)
    [9; 10; 11; 12; 13; 32; 160; 5760; 8232; 8233; 8239; 8287; 12288; 65279]%N
  || (8192 <=? c)%N && (c <=? 8202)%N.

Fixpoint trimStart (s : jsstring) : jsstring :=
  match s with
  | [] => []
  | c :: s' => if isWhiteSpace c then trimStart s' else s
  end.

Definition trimEnd (s : jsstring) : jsstring := rev (trimStart (rev s)).

(** [s.trim()] *)
Definition trim (s : jsstring) : jsstring := trimEnd (trimStart s).

(** Truthiness of a string: the empty string is the only falsy one. *)
Definition truthyStr (s : jsstring) : bool :=
  match s with [] => false | _ :: _ => true end.

(** [\d] without the [u] flag: the ten ASCII digits. *)
Definition isDigit (c : char16) : bool := (48 <=? c)%N && (c <=? 57)%N.

End Js.
Import Js.

(** ** Regular expressions

    The two patterns of the source are anchored at both ends and carry no
    flag, so [line.match(re)] is non-null exactly when the whole line is in
    the language of the pattern.  Matching is by derivatives. *)

Module Regex.

Inductive regex : Type :=
| Empty : regex
| Eps : regex
| Class : (char16 -> bool) -> regex
| Seq : regex -> regex -> regex
| Alt : regex -> regex -> regex
| Star : regex -> regex.

Fixpoint nullable (r : regex) : bool :=
  match r with
  | Empty => false
  | Eps => true
  | Class _ => false
  | Seq a b => nullable a && nullable b
  | Alt a b => nullable a || nullable b
  | Star _ => true
  end.

Fixpoint deriv (c : char16) (r : regex) : regex :=
  match r with
  | Empty => Empty
  | Eps => Empty
  | Class p => if p c then Eps else Empty
  | Seq a b =>
      if nullable a then Alt (Seq (deriv c a) b) (deriv c b)
      else Seq (deriv c a) b
  | Alt a b => Alt (deriv c a) (deriv c b)
  | Star a => Seq (deriv c a) (Star a)
  end.

Fixpoint matches (r : regex) (s : jsstring) : bool :=
  match s with
  | [] => nullable r
  | c :: s' => matches (deriv c r) s'
  end.

(** [\d], a literal code unit, [r+], [r{n}], a literal string. *)
Definition digit : regex := Class isDigit.
Definition chr (c : char16) : regex := Class (N.eqb c).
Definition plus (r : regex) : regex := Seq r (Star r).
Fixpoint rep (n : nat) (r : regex) : regex :=
  match n with
  | O => Eps
  | S n' => Seq r (rep n' r)
  end.
Fixpoint str (s : jsstring) : regex :=
  match s with
  | [] => Eps
  | c :: s' => Seq (chr c) (str s')
  end.
Fixpoint seqs (rs : list regex) : regex :=
  match rs with
  | [] => Eps
  | r :: rs' => Seq r (seqs rs')
  end.

(** [!!line.match(re)] for an anchored pattern. *)
Definition test (r : regex) (s : jsstring) : bool := matches r s.

End Regex.
Import Regex.

(** ** The transcript normalizer (subtitle pipeline) *)

(** [/^\d+$/] *)
Definition re_index : regex := plus digit.

(** [\d{2}:\d{2}:\d{2},\d{3}] *)
Definition re_stamp : list regex :=
  [rep 2 digit; str (lit ":"); rep 2 digit; str (lit ":"); rep 2 digit;
   str (lit ","); rep 3 digit].

(** [/^\d{2}:\d{2}:\d{2},\d{3} --> \d{2}:\d{2}:\d{2},\d{3}$/] *)
Definition re_timestamp : regex :=
  seqs (re_stamp ++ [str (lit " --> ")] ++ re_stamp).

(** The VTT branch of the [exec] callback: drop every line that starts with
    [WEBVTT], [Kind:] or [Language:]. *)
Definition vttToSrt (subtitleText : jsstring) : jsstring :=
  join [NL]
    (filter (fun line => negb (startsWith line (lit "Language:")))
      (filter (fun line => negb (startsWith line (lit "Kind:")))
        (filter (fun line => negb (startsWith line (lit "WEBVTT")))
          (split NL subtitleText)))).

(** "Parse SRT format to extract text". *)
Definition parseSrt (subtitleText : jsstring) : jsstring :=
  join [NL]
    (filter (fun line => truthyStr (trim line))
      (filter (fun line => negb (test re_timestamp line))
        (filter (fun line => negb (test re_index line))
          (split NL subtitleText)))).

(** What the [exec] callback leaves in [subtitleText] for a subtitle file
    named [subtitleFile] with content [raw]. *)
Definition convertSubtitle (subtitleFile raw : jsstring) : jsstring :=
  if endsWith subtitleFile (lit ".vtt") then vttToSrt raw else raw.

(** The whole normalization of one subtitle artifact. *)
Definition normalize (subtitleFile raw : jsstring) : jsstring :=
  parseSrt (convertSubtitle subtitleFile raw).


(** ** JSON values, as [express.json()] hands them to the handlers *)

Module Json.

(** A number of a JSON document, after parsing. *)
Inductive jsnumber : Type :=
| NumInt (z : Z)
    (** an integral double below [2^53] in magnitude; [String] renders it
        in decimal; [-0] is [NumInt 0] (falsy, rendered ["0"]) *)
| NumOther (shown : jsstring)
    (** any other double (fractional, or very large), carried with the
        string [Number::toString] gives it; never zero or NaN: truthy *).

Inductive jsval : Type :=
| JUndefined
| JNull
| JBool (b : bool)
| JNum (n : jsnumber)
| JStr (s : jsstring)
| JArr (elems : list jsval)
| JObj (fields : list (jsstring * jsval)).

(** An exception value: every one thrown on these paths is an [Error]
    (or a subclass), of which the handlers read [message] only. *)
Record JsError : Type := mkError { message : jsstring }.

Definition error (msg : string) : JsError := mkError (lit msg).
Definition typeError (msg : string) : JsError := mkError (lit msg).

(** [!!v] *)
Definition truthy (v : jsval) : bool :=
  match v with
  | JUndefined | JNull => false
  | JBool b => b
  | JNum (NumInt z) => negb (z =? 0)%Z
  | JNum (NumOther _) => true
  | JStr s => truthyStr s
  | JArr _ | JObj _ => true
  end.

(** Own property [k] of a parsed JSON object: the last binding wins. *)
Fixpoint lookup (k : jsstring) (fields : list (jsstring * jsval))
  : option jsval :=
  match fields with
  | [] => None
  | (k', v) :: rest =>
      match lookup k rest with
      | Some v' => Some v'
      | None => if str_eqb k' k then Some v else None
      end
  end.

(** [v.k] (also what [const { k } = v] binds) for a key [k] that no
    prototype defines: [None] is the TypeError on [undefined] and [null]. *)
Definition getProp (v : jsval) (k : string) : option jsval :=
  match v with
  | JUndefined | JNull => None
  | JObj fields =>
      Some match lookup (lit k) fields with Some x => x | None => JUndefined end
  | _ => Some JUndefined
  end.

(** [v[0]] *)
Definition getIndex0 (v : jsval) : option jsval :=
  match v with
  | JUndefined | JNull => None
  | JArr [] => Some JUndefined
  | JArr (x :: _) => Some x
  | JStr [] => Some JUndefined
  | JStr (c :: _) => Some (JStr [c])
  | JObj fields =>
      Some match lookup (lit "0") fields with Some x => x | None => JUndefined end
  | _ => Some JUndefined
  end.

(** Decimal rendering of an integer. *)
Definition showZ (z : Z) : jsstring :=
  lit (NilZero.string_of_int (Z.to_int z)).

(** [`${v}`]: ToString.  [None] is the TypeError of an object that cannot
    be converted to a primitive: one whose own [toString] property (never a
    function, in JSON) hides [Object.prototype.toString]. *)
Fixpoint toStr (v : jsval) : option jsstring :=
  match v with
  | JUndefined => Some (lit "undefined")
  | JNull => Some (lit "null")
  | JBool true => Some (lit "true")
  | JBool false => Some (lit "false")
  | JNum (NumInt z) => Some (showZ z)
  | JNum (NumOther shown) => Some shown
  | JStr s => Some s
  | JArr elems =>
      option_map (join (lit ","))
        ((fix each (l : list jsval) : option (list jsstring) :=
            match l with
            | [] => Some []
            | x :: l' =>
                match match x with
                      | JUndefined | JNull => Some []
                      | _ => toStr x
                      end, each l' with
                | Some s, Some r => Some (s :: r)
                | _, _ => None
                end
            end) elems)
  | JObj fields =>
      match lookup (lit "toString") fields with
      | Some _ => None
      | None => Some (lit "[object Object]")
      end
  end.

(** What [res.json(obj)] sends for an object literal: [JSON.stringify]
    leaves out the properties whose value is [undefined]. *)
Definition json (fields : list (string * jsval)) : jsval :=
  JObj (map (fun kv => (lit (fst kv), snd kv))
         (filter (fun kv => match snd kv with JUndefined => false | _ => true end)
            fields)).

(** The response body has a field [k]. *)
Definition hasField (k : string) (body : jsval) : bool :=
  match body with
  | JObj fields => match lookup (lit k) fields with Some _ => true | None => false end
  | _ => false
  end.

(** The field [k] of a response body. *)
Definition field (k : string) (body : jsval) : option jsval :=
  match body with
  | JObj fields => lookup (lit k) fields
  | _ => None
  end.

End Json.
Import Json.


(** ** The process state and the boundary *)

Module Sys.

(** A file of the scratch directory. *)
Record file : Type := mkFile {
  bytes : list N;                  (** its content *)
  readError : option JsError;      (** what [readFileSync] throws on it *)
  unlinkError : option JsError     (** what [unlinkSync] throws on it *)
}.

(** The scratch directory [./downloads]: its entries, in the order
    [readdirSync] lists them. *)
Abbreviation dir := (list (jsstring * file)).

Inductive logarg : Type :=
| Text (s : jsstring)
| Value (v : jsval)
| Exn (e : JsError).

(** One call of [console.log] or [console.error]. *)
Inductive logline : Type :=
| ConsoleLog (args : list logarg)
| ConsoleError (args : list logarg).

(** The state of the server process that the handlers read and write. *)
Record World : Type := mkWorld {
  globalTranscript : jsval;       (** [let globalTranscript] *)
  downloads : option dir;         (** [./downloads], [None] while absent *)
  console : list logline          (** what was logged, oldest first *)
}.

(** [let globalTranscript = ""], no scratch directory yet. *)
Definition initial : World :=
  {| globalTranscript := JStr []; downloads := None; console := [] |}.

(** What the callback of [child_process.exec] receives. *)
Record ExecResult : Type := mkExec {
  execError : option JsError;
  stdout : jsstring;
  stderr : jsstring
}.

Inductive Outcome (A : Type) : Type :=
| Ok (a : A)
| Throw (e : JsError).
Arguments Ok {A} a.
Arguments Throw {A} e.

(** The collaborators of one request: the clock, the external tools, the
    two HTTP services, the rate-limiting middleware, and the codecs of
    Node's [Buffer].  The handlers consume them through these functions. *)
Record Env : Type := mkEnv {
  now : Z;
    (** [Date.now()], in milliseconds *)
  mkdirError : option JsError;
    (** the failure of [fs.mkdirSync('./downloads')], if it fails *)
  writeError : jsstring -> option JsError;
    (** the failure of [fs.writeFileSync(path.join(downloadsDir, name), _)] *)
  exec : jsstring -> option dir -> ExecResult * option dir;
    (** [exec(command)]: what the callback gets, and what the tool has
        made of the scratch directory by then *)
  transcribePost : jsstring -> Outcome jsval;
    (** [axios.post('http://localhost:3000/transcribe', {audio})]: the
        [data] of the response, or the rejection *)
  hfPost : jsstring -> jsstring -> Outcome jsval;
    (** [hfApi.post(path, {inputs, parameters})]: the [data] of the
        response, or the rejection *)
  rateLimited : bool;
    (** the verdict of the [express-rate-limit] middleware on this request *)
  utf8Decode : list N -> jsstring;
  utf8Encode : jsstring -> list N;
  base64Encode : list N -> jsstring
}.

(** A handler step: it runs on the process state and returns or throws. *)
Definition M (A : Type) : Type := World -> Outcome A * World.

Definition ret {A} (a : A) : M A := fun w => (Ok a, w).
Definition throw {A} (e : JsError) : M A := fun w => (Throw e, w).
Definition bind {A B} (m : M A) (k : A -> M B) : M B :=
  fun w =>
    match m w with
    | (Ok a, w') => k a w'
    | (Throw e, w') => (Throw e, w')
    end.
(** [try { body } catch (err) { handler }] *)
Definition tryCatch {A} (body : M A) (handler : JsError -> M A) : M A :=
  fun w =>
    match body w with
    | (Ok a, w') => (Ok a, w')
    | (Throw e, w') => handler e w'
    end.

(** A value-or-TypeError access, such as [v.k]. *)
Definition orThrow {A} (o : option A) (e : JsError) : M A :=
  match o with
  | Some a => ret a
  | None => throw e
  end.

(** [await promise]: a rejection is thrown at the [await]. *)
Definition await {A} (settled : M (Outcome A)) : M A :=
  fun w =>
    match settled w with
    | (Ok (Ok a), w') => (Ok a, w')
    | (Ok (Throw e), w') => (Throw e, w')
    | (Throw e, w') => (Throw e, w')
    end.

Declare Scope js_scope.
Delimit Scope js_scope with js.
Notation "x <- m ;; k" := (bind m (fun x => k))
  (at level 61, m at next level, right associativity) : js_scope.
Notation "m ;;; k" := (bind m (fun _ => k))
  (at level 61, right associativity) : js_scope.
Open Scope js_scope.

Definition getTranscript : M jsval := fun w => (Ok (globalTranscript w), w).
Definition setTranscript (v : jsval) : M unit :=
  fun w => (Ok tt, {| globalTranscript := v;
                      downloads := downloads w;
                      console := console w |}).
Definition getDir : M (option dir) := fun w => (Ok (downloads w), w).
Definition setDir (d : option dir) : M unit :=
  fun w => (Ok tt, {| globalTranscript := globalTranscript w;
                      downloads := d;
                      console := console w |}).
Definition emit (l : logline) : M unit :=
  fun w => (Ok tt, {| globalTranscript := globalTranscript w;
                      downloads := downloads w;
                      console := console w ++ [l] |}).

Definition consoleLog (args : list logarg) : M unit := emit (ConsoleLog args).
Definition consoleError (args : list logarg) : M unit := emit (ConsoleError args).

(** *** [fs], on [path.join(downloadsDir, name)] *)

(** [path.join('./downloads', name)] *)
Definition pathJoin (name : jsstring) : jsstring := lit "downloads/" ++ name.

Fixpoint findFile (name : jsstring) (d : dir) : option file :=
  match d with
  | [] => None
  | (n, f) :: rest => if str_eqb n name then Some f else findFile name rest
  end.

Fixpoint removeFile (name : jsstring) (d : dir) : dir :=
  match d with
  | [] => []
  | (n, f) :: rest =>
      if str_eqb n name then rest else (n, f) :: removeFile name rest
  end.

(** The content of an existing entry is replaced in place; a new file is
    listed last, and the process that made it may read and delete it. *)
Fixpoint putFile (name : jsstring) (content : list N) (d : dir) : dir :=
  match d with
  | [] => [(name, {| bytes := content; readError := None;
                     unlinkError := None |})]
  | (n, g) :: rest =>
      if str_eqb n name
      then (n, {| bytes := content; readError := readError g;
                  unlinkError := unlinkError g |}) :: rest
      else (n, g) :: putFile name content rest
  end.

(** The error of a system call on a path that does not exist. *)
Definition enoent (syscall : string) (name : jsstring) : JsError :=
  mkError (lit "ENOENT: no such file or directory, " ++ lit syscall
           ++ lit " '" ++ lit "downloads/" ++ name ++ lit "'").

(** [fs.existsSync('./downloads')] *)
Definition existsDir : M bool :=
  d <- getDir ;; ret (match d with Some _ => true | None => false end).

(** [fs.mkdirSync('./downloads')] *)
Definition mkdirSync (env : Env) : M unit :=
  match mkdirError env with
  | Some e => throw e
  | None => setDir (Some [])
  end.

(** [fs.readdirSync(downloadsDir)] *)
Definition readdirSync : M (list jsstring) :=
  d <- getDir ;;
  match d with
  | Some entries => ret (map fst entries)
  | None => throw (error "ENOENT: no such file or directory, scandir './downloads'")
  end.

(** [fs.existsSync(path.join(downloadsDir, name))] *)
Definition existsSync (name : jsstring) : M bool :=
  d <- getDir ;;
  ret match d with
      | Some entries =>
          match findFile name entries with Some _ => true | None => false end
      | None => false
      end.

(** [fs.readFileSync(path.join(downloadsDir, name))]: the bytes. *)
Definition readFileSync (name : jsstring) : M (list N) :=
  d <- getDir ;;
  match d with
  | Some entries =>
      match findFile name entries with
      | Some f =>
          match readError f with
          | None => ret (bytes f)
          | Some e => throw e
          end
      | None => throw (enoent "open" name)
      end
  | None => throw (enoent "open" name)
  end.

(** [fs.unlinkSync(path.join(downloadsDir, name))] *)
Definition unlinkSync (name : jsstring) : M unit :=
  d <- getDir ;;
  match d with
  | Some entries =>
      match findFile name entries with
      | Some f =>
          match unlinkError f with
          | None => setDir (Some (removeFile name entries))
          | Some e => throw e
          end
      | None => throw (enoent "unlink" name)
      end
  | None => throw (enoent "unlink" name)
  end.

(** [fs.writeFileSync(path.join(downloadsDir, name), data)].  Of the values
    a JSON document can hold, [data] may only be a string: since Node 14
    anything else that is no Buffer or typed array is a TypeError. *)
Definition writeFileSync (env : Env) (name : jsstring) (data : jsval) : M unit :=
  match data with
  | JStr s =>
      match writeError env name with
      | Some e => throw e
      | None =>
          d <- getDir ;;
          match d with
          | Some entries =>
              setDir (Some (putFile name (utf8Encode env s) entries))
          | None => throw (enoent "open" name)
          end
      end
  | _ => throw (typeError "The data argument must be of type string or an instance of Buffer, TypedArray, or DataView")
  end.

(** [exec(command, { shell: '/bin/bash' }, callback)]: runs the tool and
    hands its result to the callback. *)
Definition execChild (env : Env) (command : jsstring) : M ExecResult :=
  d <- getDir ;;
  let (r, d') := exec env command d in
  setDir d' ;;; ret r.

End Sys.
Import Sys.

(** ** The handlers of [server/index.js]

    A handler runs to its response in one piece: what other requests do
    while it is suspended at an [await] is not part of this model. *)

Open Scope string_scope.
Open Scope list_scope.

Record Response : Type := mkResponse {
  status : Z;
  payload : jsval
}.

(** [res.json(obj)] and [res.status(code).json(obj)] *)
Definition resJson (fields : list (string * jsval)) : M Response :=
  ret {| status := 200; payload := json fields |}.
Definition resStatusJson (code : Z) (fields : list (string * jsval)) : M Response :=
  ret {| status := code; payload := json fields |}.

Definition text (s : string) : logarg := Text (lit s).
Definition jstr (s : string) : jsval := JStr (lit s).

(** The double quote of the command lines and of the prompt. *)
Definition dq : jsstring := [34%N].

(** The TypeError of a property read on [undefined] or [null]. *)
Definition cannotRead : JsError :=
  typeError "Cannot read properties of undefined".
Definition cannotConvert : JsError :=
  typeError "Cannot convert object to primitive value".

(** "Create downloads directory if it doesn't exist" *)
Definition ensureDownloads (env : Env) : M unit :=
  present <- existsDir ;;
  if negb present then mkdirSync env else ret tt.

(** *** [POST /transcribe] *)

Definition transcribe (env : Env) (body : jsval) : M Response :=
  tryCatch
    (audio <- orThrow (getProp body "audio") cannotRead ;;
     if negb (truthy audio) then
       resStatusJson 400 [("error", jstr "Audio data is required")]
     else
       consoleLog [text "Received audio data for transcription"] ;;;
       let transcription := jstr "Transcription completed successfully" in
       resJson [("transcript", transcription)])
    (fun error =>
       consoleError [text "Error processing transcription:"; Exn error] ;;;
       resStatusJson 500
         [("error", jstr "Failed to process transcription");
          ("details", JStr (message error))]).

(** *** [POST /upload-url] *)

(** [files.find(file => file.endsWith('.srt') || file.endsWith('.vtt'))] *)
Definition findSubtitle (files : list jsstring) : option jsstring :=
  find (fun file => endsWith file (lit ".srt") || endsWith file (lit ".vtt"))
       files.

(** The callback given to [exec] for yt-dlp.  It settles the promise the
    handler awaits: [Ok subtitleText] is [resolve()] with the text it has
    left in [subtitleText], [Throw e] is [reject(e)]. *)
Definition onYtDlpExit (env : Env) (r : ExecResult) : M (Outcome jsstring) :=
  consoleLog [text "yt-dlp output:"; Text (stdout r)] ;;;
  (if truthyStr (stderr r)
   then consoleError [text "yt-dlp error:"; Text (stderr r)]
   else ret tt) ;;;
  match execError r with
  | Some error =>
      consoleError [text "Error downloading video:"; Exn error] ;;;
      ret (Throw error)
  | None =>
      tryCatch
        (files <- readdirSync ;;
         match findSubtitle files with
         | Some subtitleFile =>
             raw <- readFileSync subtitleFile ;;
             let subtitleText := utf8Decode env raw in
             consoleLog [text "Successfully read subtitle file:"; Text subtitleFile] ;;;
             if endsWith subtitleFile (lit ".vtt") then
               consoleLog [text "Converting VTT to SRT format..."] ;;;
               ret (Ok (vttToSrt subtitleText))
             else ret (Ok subtitleText)
         | None =>
             consoleError [text "No subtitle file found in directory"] ;;;
             ret (Throw (error "No subtitle file found"))
         end)
        (fun err =>
           consoleError [text "Error reading subtitle file:"; Exn err] ;;;
           ret (Throw err))
  end.

(** [`subtitle_${timestamp}.srt`], the name yt-dlp is given with [-o]. *)
Definition subtitleName (timestamp : Z) : jsstring :=
  lit "subtitle_" ++ showZ timestamp ++ lit ".srt".

Definition ytDlpCommand (videoURL subtitlePath : jsstring) : jsstring :=
  lit "yt-dlp --write-auto-sub --sub-lang en --sub-format srt --skip-download "
  ++ dq ++ videoURL ++ dq ++ lit " -o " ++ dq ++ subtitlePath ++ dq.

(** "Clean up downloaded files": the [subtitlePath] in scope here is the
    handler's own, [path.join(downloadsDir, `subtitle_${timestamp}.srt`)]. *)
Definition cleanUpSubtitle (timestamp : Z) : M unit :=
  tryCatch
    (present <- existsSync (subtitleName timestamp) ;;
     if present then
       unlinkSync (subtitleName timestamp) ;;;
       consoleLog [text "Cleaned up subtitle file"]
     else ret tt)
    (fun err => consoleError [text "Error cleaning up:"; Exn err]).

Definition uploadUrl (env : Env) (body : jsval) : M Response :=
  tryCatch
    (if negb (truthy body) then
       resStatusJson 400 [("error", jstr "No request body received")]
     else
       consoleLog [text "Received request:"; Value body] ;;;
       videoURL <- orThrow (getProp body "videoURL") cannotRead ;;
       if negb (truthy videoURL) then
         consoleError [text "No video URL provided"] ;;;
         resStatusJson 400 [("error", jstr "Video URL is required")]
       else
         ensureDownloads env ;;;
         let timestamp := now env in
         let subtitlePath := pathJoin (subtitleName timestamp) in
         consoleLog [text "Downloading video and extracting subtitles..."] ;;;
         url <- orThrow (toStr videoURL) cannotConvert ;;
         let command := ytDlpCommand url subtitlePath in
         consoleLog [text "Running command:"; Text command] ;;;
         subtitleText <- await (r <- execChild env command ;; onYtDlpExit env r) ;;
         let transcript := parseSrt subtitleText in
         consoleLog [text "Successfully extracted transcript"] ;;;
         cleanUpSubtitle timestamp ;;;
         resJson [("transcript", JStr transcript); ("success", JBool true)])
    (fun error =>
       consoleError [text "Error processing video:"; Exn error] ;;;
       resStatusJson 500
         [("error", jstr "Failed to process video");
          ("details", JStr (message error))]).

(** *** [POST /upload-video] *)

Definition videoName (timestamp : Z) : jsstring :=
  lit "video_" ++ showZ timestamp ++ lit ".mp4".
Definition audioName (timestamp : Z) : jsstring :=
  lit "audio_" ++ showZ timestamp ++ lit ".wav".
Definition transcriptName (timestamp : Z) : jsstring :=
  lit "transcript_" ++ showZ timestamp ++ lit ".txt".

Definition ffmpegCommand (videoPath audioPath : jsstring) : jsstring :=
  lit "ffmpeg -i " ++ dq ++ videoPath ++ dq
  ++ lit " -ab 160k -ac 2 -ar 44100 -vn " ++ dq ++ audioPath ++ dq.

(** The callback given to [exec] for FFmpeg. *)
Definition onFfmpegExit (r : ExecResult) : M (Outcome unit) :=
  consoleLog [text "FFmpeg output:"; Text (stdout r)] ;;;
  (if truthyStr (stderr r)
   then consoleError [text "FFmpeg error:"; Text (stderr r)]
   else ret tt) ;;;
  match execError r with
  | Some error =>
      consoleError [text "Error converting video to audio:"; Exn error] ;;;
      ret (Throw error)
  | None => ret (Ok tt)
  end.

Definition uploadVideo (env : Env) (body : jsval) : M Response :=
  tryCatch
    (if negb (truthy body) then
       resStatusJson 400 [("error", jstr "No request body received")]
     else
       consoleLog [text "Received request:"; Value body] ;;;
       video <- orThrow (getProp body "video") cannotRead ;;
       if negb (truthy video) then
         consoleError [text "No video provided"] ;;;
         resStatusJson 400 [("error", jstr "Video is required")]
       else
         ensureDownloads env ;;;
         let timestamp := now env in
         let videoPath := pathJoin (videoName timestamp) in
         let audioPath := pathJoin (audioName timestamp) in
         writeFileSync env (videoName timestamp) video ;;;
         consoleLog [text "Converting video to audio..."] ;;;
         let command := ffmpegCommand videoPath audioPath in
         consoleLog [text "Running command:"; Text command] ;;;
         await (r <- execChild env command ;; onFfmpegExit r) ;;;
         wavBuffer <- readFileSync (audioName timestamp) ;;
         let audioBase64 := base64Encode env wavBuffer in
         data <- await (ret (transcribePost env audioBase64)) ;;
         transcript <- orThrow (getProp data "transcript") cannotRead ;;
         unlinkSync (audioName timestamp) ;;;
         writeFileSync env (transcriptName timestamp) transcript ;;;
         unlinkSync (videoName timestamp) ;;;
         setTranscript transcript ;;;
         transcriptText <- orThrow (getProp transcript "text") cannotRead ;;
         resJson [("success", JBool true);
                  ("transcript", transcriptText);
                  ("timestamp", JNum (NumInt timestamp))])
    (fun error =>
       consoleError [text "Error processing video:"; Exn error] ;;;
       resStatusJson 500
         [("error", jstr "Failed to process video");
          ("details", JStr (message error))]).

(** *** [POST /ask] *)

Definition MODEL_ID : jsstring := lit "google/flan-t5-large".

(** [generateResponse(prompt)] *)
Definition generateResponse (env : Env) (prompt : jsstring) : M jsval :=
  tryCatch
    (data <- await (ret (hfPost env (lit "/" ++ MODEL_ID) prompt)) ;;
     first <- orThrow (getIndex0 data) cannotRead ;;
     orThrow (getProp first "generated_text") cannotRead)
    (fun error =>
       consoleError [text "Hugging Face API error:"; Exn error] ;;;
       throw error).

(** The template literal of the prompt, with its three substitutions
    already converted to strings. *)
Definition buildPrompt (transcript timestamp question : jsstring) : jsstring :=
  lit "
    You're an assistant helping analyze video content. Based on this transcript:
    
    " ++ dq ++ transcript ++ dq ++ lit "
    
    At around " ++ timestamp
  ++ lit " seconds, answer the user's question: " ++ dq ++ question ++ dq ++ lit "
    ".

(** [answer.trim()]: a method of strings only. *)
Definition callTrim (answer : jsval) : option jsstring :=
  match answer with
  | JStr s => Some (trim s)
  | _ => None
  end.

(** "Use current time if timestamp is not provided", then the prompt:
    [timestamp || Math.floor(Date.now() / 1000)] and the template literal
    over [globalTranscript], [currentTimestamp] and [question].
    [Date.now()] is a whole number of milliseconds, so the floored quotient
    is the integer quotient. *)
Definition synthesizePrompt (env : Env) (question timestamp : jsval) : M jsstring :=
  let currentTimestamp :=
    if truthy timestamp then timestamp
    else JNum (NumInt (now env / 1000)) in
  stored <- getTranscript ;;
  transcriptStr <- orThrow (toStr stored) cannotConvert ;;
  timestampStr <- orThrow (toStr currentTimestamp) cannotConvert ;;
  questionStr <- orThrow (toStr question) cannotConvert ;;
  ret (buildPrompt transcriptStr timestampStr questionStr).

Definition ask (env : Env) (body : jsval) : M Response :=
  tryCatch
    (if negb (truthy body) then
       resStatusJson 400 [("error", jstr "No request body received")]
     else
       question <- orThrow (getProp body "question") cannotRead ;;
       timestamp <- orThrow (getProp body "timestamp") cannotRead ;;
       if negb (truthy question) then
         resStatusJson 400 [("error", jstr "Question is required")]
       else
         prompt <- synthesizePrompt env question timestamp ;;
         tryCatch
           (answer <- generateResponse env prompt ;;
            trimmed <- orThrow (callTrim answer)
                         (typeError "answer.trim is not a function") ;;
            resJson [("answer", JStr trimmed)])
           (fun error =>
              consoleError [text "Hugging Face API error:"; Exn error] ;;;
              throw error))
    (fun err =>
       consoleError [text "Error in /ask endpoint:"; Exn err] ;;;
       resStatusJson 500
         [("error", jstr "Failed to get answer");
          ("details", JStr (message err))]).

(** The options given to [rateLimit].  The counting of requests per client
    and per window is done inside the [express-rate-limit] package, which
    is no part of these sources; its verdict on a request is [rateLimited]. *)
Module Limiter.
Definition windowMs : Z := 60 * 1000.
Definition max : Z := 3.
Definition message : jsval :=
  json [("error", jstr "Too many requests");
        ("details", jstr "Please wait 20 seconds between requests")].
End Limiter.

(** [app.use('/ask', apiLimiter)]: a limited request is answered with the
    configured message, under the package's default status 429, and does
    not reach the route. *)
Definition apiLimiter (env : Env) (next : M Response) : M Response :=
  if rateLimited env then ret {| status := 429; payload := Limiter.message |}
  else next.

(** *** The four boundary endpoints *)

Inductive endpoint : Type := Transcribe | UploadUrl | UploadVideo | Ask.

Definition handle (ep : endpoint) (env : Env) (body : jsval) : M Response :=
  match ep with
  | Transcribe => transcribe env body
  | UploadUrl => uploadUrl env body
  | UploadVideo => uploadVideo env body
  | Ask => apiLimiter env (ask env body)
  end.

(** ** The line classes of the specification

    Written from the words of the specification, independently of the
    patterns of the source; the normalizer is compared with them below. *)

Module SrtSpec.

(** A line break occurs nowhere in the line. *)
Definition singleLine (l : jsstring) : bool :=
  forallb (fun c => negb (N.eqb c NL)) l.

(** "pure integer": one or more digits and nothing else. *)
Definition isIndexLine (l : jsstring) : bool :=
  match l with
  | [] => false
  | _ :: _ => forallb isDigit l
  end.

(** [HH:MM:SS,mmm] *)
Definition isStamp (l : jsstring) : bool :=
  match l with
  | [h1; h2; c1; m1; m2; c2; s1; s2; c3; f1; f2; f3] =>
      forallb isDigit [h1; h2; m1; m2; s1; s2; f1; f2; f3]
      && str_eqb [c1; c2; c3] (lit "::,")
  | _ => false
  end.

(** [HH:MM:SS,mmm --> HH:MM:SS,mmm] *)
Definition isTimestampLine (l : jsstring) : bool :=
  isStamp (firstn 12 l)
  && str_eqb (firstn 5 (skipn 12 l)) (lit " --> ")
  && isStamp (skipn 17 l).

(** blank or whitespace-only *)
Definition isBlankLine (l : jsstring) : bool := forallb isWhiteSpace l.

(** A dialogue line is a line of none of the three kinds. *)
Definition isDialogueLine (l : jsstring) : bool :=
  negb (isIndexLine l) && negb (isTimestampLine l) && negb (isBlankLine l).

(** The [WEBVTT] header line, the [Kind:] line and the [Language:] line. *)
Definition isVttHeaderLine (l : jsstring) : bool :=
  startsWith l (lit "WEBVTT") || startsWith l (lit "Kind:")
  || startsWith l (lit "Language:").

End SrtSpec.
Import SrtSpec.

(** ** The texts of the specification

    What the specification says of a text, written over the code units of
    the text and without the string functions of the source. *)

Module TextSpec.

(** "joined with newline separators": the first line, then every further
    line after a line feed (code unit 10). *)
Definition joinedByNewlines (ls : list jsstring) : jsstring :=
  match ls with
  | [] => []
  | l :: rest => l ++ flat_map (fun x => 10%N :: x) rest
  end.

(** [s] between two double quotes (code unit 34). *)
Definition quoted (s : jsstring) : jsstring := 34%N :: s ++ [34%N].

(** The number that a string of decimal digits denotes. *)
Definition decimalValue (s : jsstring) : Z :=
  fold_left (fun v c => (10 * v + (Z.of_N c - 48))%Z) s 0%Z.

End TextSpec.
Import TextSpec.

(** ** Scenarios

    Concrete collaborators for the worked examples.  Their texts are ASCII,
    on which UTF-8 decoding and encoding are the identity. *)

Module Scenario.

Definition b64char (i : N) : char16 :=
  nth (N.to_nat i)
    (lit "ABCDEFGHIJKLMNOPQRSTUVWXYZabcdefghijklmnopqrstuvwxyz0123456789+/")
    61%N.

(** [buffer.toString('base64')] *)
Fixpoint base64 (bs : list N) : jsstring :=
  match bs with
  | [] => []
  | [a] => [b64char (a / 4); b64char ((a mod 4) * 16); 61; 61]%N
  | [a; b] =>
      [b64char (a / 4); b64char ((a mod 4) * 16 + b / 16);
       b64char ((b mod 16) * 4); 61]%N
  | a :: b :: c :: rest =>
      [b64char (a / 4); b64char ((a mod 4) * 16 + b / 16);
       b64char ((b mod 16) * 4 + c / 64); b64char (c mod 64)]%N
      ++ base64 rest
  end.

Definition quiet : ExecResult :=
  {| execError := None; stdout := []; stderr := [] |}.

Definition plainFile (content : jsstring) : file :=
  {| bytes := content; readError := None; unlinkError := None |}.

(** A file that cannot be read. *)
Definition eacces : JsError :=
  error "EACCES: permission denied, open 'downloads/subtitle_1000.srt.en.vtt'".
Definition unreadableFile : file :=
  {| bytes := []; readError := Some eacces; unlinkError := None |}.

(** A file that cannot be deleted. *)
Definition eperm : JsError :=
  error "EPERM: operation not permitted, unlink 'downloads/subtitle_1000.srt'".
Definition stuckFile (content : jsstring) : file :=
  {| bytes := content; readError := None; unlinkError := Some eperm |}.

(** A tool that exits with status 0 and adds [produced] to the directory. *)
Definition toolWrites (produced : dir) (command : jsstring) (d : option dir)
  : ExecResult * option dir :=
  (quiet, Some (match d with Some entries => entries | None => [] end ++ produced)).

(** An environment in which every file operation succeeds, the tool leaves
    [produced] behind, the speech service answers [speech] and the language
    model answers [model]. *)
Definition env (clock : Z) (produced : dir) (speech model : Outcome jsval) : Env :=
  {| now := clock;
     mkdirError := None;
     writeError := fun _ => None;
     exec := toolWrites produced;
     transcribePost := fun _ => speech;
     hfPost := fun _ _ => model;
     rateLimited := false;
     utf8Decode := fun b => b;
     utf8Encode := fun s => s;
     base64Encode := base64 |}.

(** *** Worked requests *)

Definition unused : Outcome jsval := Throw (error "unused").

(** An SRT file with one cue. *)
Definition oneCue : jsstring :=
  join [NL] [lit "1"; lit "00:00:01,000 --> 00:00:02,000"; lit "hello"].

(** [/upload-url] at time 1000; yt-dlp leaves [subtitle_1000.srt]. *)
Definition urlEnv : Env :=
  env 1000 [(lit "subtitle_1000.srt", plainFile oneCue)] unused unused.
Definition urlBody : jsval := JObj [(lit "videoURL", jstr "http://v/1")].

(** [/upload-video] at time 1000; FFmpeg leaves [audio_1000.wav] and the
    speech service recognizes [heard]. *)
Definition videoEnv (heard : jsstring) : Env :=
  env 1000 [(lit "audio_1000.wav", plainFile (lit "RIFF"))]
    (Ok (JObj [(lit "transcript", JStr heard)])) unused.
Definition videoBody : jsval := JObj [(lit "video", jstr "AAAA")].

Definition videoResponse : Response :=
  {| status := 200;
     payload := JObj [(lit "success", JBool true);
                      (lit "timestamp", JNum (NumInt 1000))] |}.

Definition videoWorld (heard : jsstring) : World :=
  Eval vm_compute in snd (uploadVideo (videoEnv heard) videoBody initial).

(** [/upload-url] at time 1000; yt-dlp leaves [subtitle_1000.srt.en.vtt]. *)
Definition vttName : jsstring := lit "subtitle_1000.srt.en.vtt".
Definition vttEnv (artifact : file) : Env :=
  env 1000 [(vttName, artifact)] unused unused.

(** [/upload-url] at time 1000; yt-dlp leaves a [subtitle_1000.srt] that
    cannot be deleted. *)
Definition stuckEnv : Env :=
  env 1000 [(lit "subtitle_1000.srt", stuckFile oneCue)] unused unused.

(** [/ask] at time 61500 ms; the language model generates [generated]. *)
Definition askEnv (generated : jsstring) : Env :=
  env 61500 [] unused
    (Ok (JArr [JObj [(lit "generated_text", JStr generated)]])).
Definition askBody : jsval := JObj [(lit "question", jstr "What is said?")].

End Scenario.


(** ** Reasoning about handler steps *)

Module Logic.

(** [wp m w Q]: running [m] on [w] ends in an outcome and a state that
    satisfy [Q]. *)
Definition wp {A} (m : M A) (w : World) (Q : Outcome A -> World -> Prop) : Prop :=
  Q (fst (m w)) (snd (m w)).

(** The failure payloads of the handlers. *)
Definition validationFailure (r : Response) : Prop :=
  status r = 400%Z
  /\ hasField "error" (payload r) = true
  /\ hasField "details" (payload r) = false.

Definition detailedFailure (r : Response) : Prop :=
  (status r = 500%Z \/ status r = 429%Z)
  /\ hasField "error" (payload r) = true
  /\ hasField "details" (payload r) = true.

(** The postcondition of an endpoint on failures: it returns, and what it
    returns is a success or one of the two failure payloads. *)
Definition structured (o : Outcome Response) (_ : World) : Prop :=
  match o with
  | Ok r => status r = 200%Z \/ validationFailure r \/ detailedFailure r
  | Throw _ => False
  end.

(** The store holds the text [t] that the transcription boundary returned
    for the audio file FFmpeg left for this request. *)
Definition holdsRecognizedText (env : Env) (w' : World) : Prop :=
  exists before result entries audio data t,
    exec env (ffmpegCommand (pathJoin (videoName (now env)))
                (pathJoin (audioName (now env)))) before
    = (result, Some entries)
    /\ findFile (audioName (now env)) entries = Some audio
    /\ transcribePost env (base64Encode env (bytes audio)) = Ok data
    /\ getProp data "transcript" = Some (JStr t)
    /\ globalTranscript w' = JStr t.

(** What one request does to the store, per endpoint. *)
Definition storeEffect (ep : endpoint) (env : Env) (w : World)
    (o : Outcome Response) (w' : World) : Prop :=
  match o with
  | Throw _ => globalTranscript w' = globalTranscript w
  | Ok r =>
      match ep with
      | UploadVideo =>
          (status r = 200%Z -> holdsRecognizedText env w')
          /\ (status r <> 200%Z -> globalTranscript w' = globalTranscript w)
      | UploadUrl =>
          status r <> 200%Z -> globalTranscript w' = globalTranscript w
      | Transcribe | Ask => globalTranscript w' = globalTranscript w
      end
  end.

(** The store holds a string before and after. *)
Definition stringStore (w : World) {A} (_ : Outcome A) (w' : World) : Prop :=
  (exists t, globalTranscript w = JStr t) ->
  exists t', globalTranscript w' = JStr t'.

(** The response of a successful [/upload-video] request has no
    [transcript] field. *)
Definition lacksTranscript (o : Outcome Response) (_ : World) : Prop :=
  match o with
  | Ok r => status r = 200%Z -> field "transcript" (payload r) = None
  | Throw _ => True
  end.

End Logic.
Import Logic.

(** ** Further vocabulary

    What the properties beyond the specification's own are stated with. *)

Module More.

Definition CR : char16 := 13%N.

(** [HH:MM:SS.mmm], a WebVTT timestamp: a dot before the milliseconds. *)
Definition isDotStamp (l : jsstring) : bool :=
  match l with
  | [h1; h2; c1; m1; m2; c2; s1; s2; c3; f1; f2; f3] =>
      forallb isDigit [h1; h2; m1; m2; s1; s2; f1; f2; f3]
      && str_eqb [c1; c2; c3] (lit "::.")
  | _ => false
  end.

(** [HH:MM:SS.mmm --> HH:MM:SS.mmm], a WebVTT cue timing line. *)
Definition isVttTimingLine (l : jsstring) : bool :=
  isDotStamp (firstn 12 l)
  && str_eqb (firstn 5 (skipn 12 l)) (lit " --> ")
  && isDotStamp (skipn 17 l).

(** Two normalized texts put one after the other: a line break between
    them when neither is empty. *)
Definition glue (a b : jsstring) : jsstring :=
  match a, b with
  | [], _ => b
  | _, [] => a
  | _ :: _, _ :: _ => a ++ NL :: b
  end.

(** No whitespace at either end. *)
Definition trimmed (s : jsstring) : bool :=
  match s with [] => true | c :: _ => negb (isWhiteSpace c) end
  && match rev s with [] => true | c :: _ => negb (isWhiteSpace c) end.

(** [data[0].generated_text], when it is a string. *)
Definition firstGeneratedText (data : jsval) : option jsstring :=
  match getIndex0 data with
  | Some first =>
      match getProp first "generated_text" with
      | Some (JStr generated) => Some generated
      | _ => None
      end
  | None => None
  end.

(** The file a successful cleanup leaves the scratch directory without. *)
Definition cleaned (timestamp : Z) (entries : dir) : dir :=
  match findFile (subtitleName timestamp) entries with
  | Some target =>
      match unlinkError target with
      | None => removeFile (subtitleName timestamp) entries
      | Some _ => entries
      end
  | None => entries
  end.

(** No two entries of the directory have the same name. *)
Fixpoint distinctNames (d : dir) : bool :=
  match d with
  | [] => true
  | (n, _) :: rest =>
      match findFile n rest with
      | None => distinctNames rest
      | Some _ => false
      end
  end.

(** *** The speech widget of [public/transcription.js] *)

(** What [fetch] is called with. *)
Record FetchCall : Type := mkFetch {
  url : jsstring;
  method : jsstring;
  contentType : jsstring;
  sent : jsval        (** the value whose [JSON.stringify] is the body *)
}.

(** [recognition.onresult], on an event whose [results[0][0].transcript] is
    [transcript]. *)
Definition onresult (transcript : jsstring) : FetchCall :=
  {| url := lit "/transcribe";
     method := lit "POST";
     contentType := lit "application/json";
     sent := JObj [(lit "transcript", JStr transcript)] |}.

(** *** The same request at another time *)

(** [env] with the clock at [clock]. *)
Definition atClock (clock : Z) (env : Env) : Env :=
  {| now := clock;
     mkdirError := mkdirError env;
     writeError := writeError env;
     exec := exec env;
     transcribePost := transcribePost env;
     hfPost := hfPost env;
     rateLimited := rateLimited env;
     utf8Decode := utf8Decode env;
     utf8Encode := utf8Encode env;
     base64Encode := base64Encode env |}.

(** *** What every response of an endpoint comes with *)

(** The body of a success, per endpoint. *)
Definition successBody (ep : endpoint) (body : jsval) : Prop :=
  match ep with
  | Transcribe =>
      body = json [("transcript", jstr "Transcription completed successfully")]
  | UploadUrl =>
      exists subtitleText,
        body = json [("transcript", JStr (parseSrt subtitleText));
                     ("success", JBool true)]
  | UploadVideo =>
      exists timestamp,
        body = json [("success", JBool true);
                     ("timestamp", JNum (NumInt timestamp))]
  | Ask =>
      exists generated, body = json [("answer", JStr (trim generated))]
  end.

(** A validation failure has touched neither the store nor the scratch
    directory; a caught failure has been logged last, with the error whose
    message is the [details]; a success has the body of its endpoint. *)
Definition accounted (ep : endpoint) (w : World) (o : Outcome Response)
    (w' : World) : Prop :=
  match o with
  | Throw _ => True
  | Ok r =>
      (status r = 400%Z ->
       globalTranscript w' = globalTranscript w
       /\ downloads w' = downloads w)
      /\ (status r = 500%Z ->
          exists logged label e,
            console w' = logged ++ [ConsoleError [Text label; Exn e]]
            /\ field "details" (payload r) = Some (JStr (message e)))
      /\ (status r = 200%Z -> successBody ep (payload r))
  end.

(** *** Further worked requests *)

(** A tool that exits with an error and leaves the directory as it was. *)
Definition failed (e : JsError) : ExecResult :=
  {| execError := Some e; stdout := []; stderr := [] |}.

Definition notFound : JsError := error "Command failed: yt-dlp".

Definition failedToolEnv : Env :=
  {| now := 1000;
     mkdirError := None;
     writeError := fun _ => None;
     exec := fun _ d => (failed notFound, d);
     transcribePost := fun _ => Scenario.unused;
     hfPost := fun _ _ => Scenario.unused;
     rateLimited := false;
     utf8Decode := fun b => b;
     utf8Encode := fun s => s;
     base64Encode := Scenario.base64 |}.

(** [/upload-url] at time 1000; yt-dlp leaves no subtitle file. *)
Definition noSubtitleEnv : Env :=
  Scenario.env 1000 [(lit "video.mp4", Scenario.plainFile [])]
    Scenario.unused Scenario.unused.

(** A WebVTT file with one cue. *)
Definition oneVttCue : jsstring :=
  join [NL] [lit "WEBVTT"; []; lit "00:00:01.000 --> 00:00:02.000";
             lit "hello"].

(** [/upload-video] at time 1000; FFmpeg leaves an [audio_1000.wav] that
    cannot be deleted. *)
Definition ebusy : JsError :=
  error "EBUSY: resource busy or locked, unlink 'downloads/audio_1000.wav'".
Definition stuckAudio : file :=
  {| bytes := lit "RIFF"; readError := None; unlinkError := Some ebusy |}.
Definition stuckAudioEnv (heard : jsstring) : Env :=
  Scenario.env 1000 [(lit "audio_1000.wav", stuckAudio)]
    (Ok (JObj [(lit "transcript", JStr heard)])) Scenario.unused.

(** [/ask] with a timestamp in the body. *)
Definition askAtBody : jsval :=
  JObj [(lit "question", jstr "What is said?");
        (lit "timestamp", JNum (NumInt 42))].

(** [/ask] at time 61500 ms; the language model is not reachable. *)
Definition unavailable : JsError :=
  error "Request failed with status code 503".
Definition askDownEnv : Env :=
  Scenario.env 61500 [] Scenario.unused (Throw unavailable).

End More.
Import More.

(** * Properties *)

(** ** Strings *)

Section StringFacts.

Lemma str_eqb_refl (a : jsstring) : str_eqb a a = true.
Proof.
  induction a as [|x a IH]; simpl; [reflexivity|].
  now rewrite N.eqb_refl.
Qed.

Lemma str_eqb_eq (a b : jsstring) : str_eqb a b = true <-> a = b.
Proof.
  split.
  - revert b; induction a as [|x a IH]; intros [|y b]; simpl; try easy.
    intros H. apply andb_true_iff in H as [Hx Hr].
    apply N.eqb_eq in Hx. apply IH in Hr. congruence.
  - intros ->. apply str_eqb_refl.
Qed.

Lemma split_nonempty (sep : char16) (s : jsstring) : split sep s <> [].
Proof.
  destruct s as [|c s]; simpl; [discriminate|].
  destruct (N.eqb c sep); [discriminate|].
  destruct (split sep s); discriminate.
Qed.

(** No line of a split text contains the separator. *)
Lemma split_singleLine (s : jsstring) : forallb singleLine (split NL s) = true.
Proof.
  induction s as [|c s IH]; simpl; [reflexivity|].
  destruct (N.eqb c NL) eqn:E; simpl; [exact IH|].
  destruct (split NL s) as [|l ls]; simpl in *.
  - now rewrite E.
  - now rewrite E.
Qed.

Lemma split_line (l : jsstring) :
  singleLine l = true -> split NL l = [l].
Proof.
  induction l as [|c l IH]; simpl; [reflexivity|].
  intros H. apply andb_true_iff in H as [Hc Hl].
  apply negb_true_iff in Hc. rewrite Hc, (IH Hl). reflexivity.
Qed.

Lemma split_line_break (l rest : jsstring) :
  singleLine l = true -> split NL (l ++ NL :: rest) = l :: split NL rest.
Proof.
  induction l as [|c l IH]; simpl; [reflexivity|].
  intros H. apply andb_true_iff in H as [Hc Hl].
  apply negb_true_iff in Hc. rewrite Hc, (IH Hl). reflexivity.
Qed.

(** Splitting undoes joining, on one line or more. *)
Lemma split_join (l : jsstring) (ls : list jsstring) :
  forallb singleLine (l :: ls) = true ->
  split NL (join [NL] (l :: ls)) = l :: ls.
Proof.
  revert l; induction ls as [|l' ls IH]; intros l H.
  - simpl in *. apply split_line. now rewrite andb_true_r in H.
  - change (join [NL] (l :: l' :: ls)) with (l ++ NL :: join [NL] (l' :: ls)).
    simpl in H. apply andb_true_iff in H as [Hl Hr].
    rewrite (split_line_break l _ Hl). f_equal. apply IH. exact Hr.
Qed.

(** Joining undoes splitting. *)
Lemma join_split (s : jsstring) : join [NL] (split NL s) = s.
Proof.
  induction s as [|c s IH]; [reflexivity|].
  simpl split. destruct (N.eqb c NL) eqn:E.
  - apply N.eqb_eq in E. subst c.
    pose proof (split_nonempty NL s) as Hne.
    destruct (split NL s) as [|l ls]; [contradiction|].
    change (join [NL] ([] :: l :: ls)) with (NL :: join [NL] (l :: ls)).
    now rewrite IH.
  - pose proof (split_nonempty NL s) as Hne.
    destruct (split NL s) as [|l ls]; [contradiction|].
    destruct ls as [|l2 ls]; simpl in *; now rewrite <- IH.
Qed.

Lemma filter_filter {A} (p q : A -> bool) (l : list A) :
  filter p (filter q l) = filter (fun x => q x && p x) l.
Proof.
  induction l as [|x l IH]; simpl; [reflexivity|].
  destruct (q x); simpl; [destruct (p x)|]; now rewrite IH.
Qed.

Lemma forallb_filter {A} (p q : A -> bool) (l : list A) :
  forallb p l = true -> forallb p (filter q l) = true.
Proof.
  induction l as [|x l IH]; simpl; [reflexivity|].
  intros H. apply andb_true_iff in H as [Hx Hl].
  destruct (q x); simpl; [rewrite Hx|]; auto.
Qed.

Lemma forallb_filter_self {A} (p : A -> bool) (l : list A) :
  forallb p (filter p l) = true.
Proof.
  induction l as [|x l IH]; simpl; [reflexivity|].
  destruct (p x) eqn:E; simpl; [rewrite E|]; auto.
Qed.

Lemma truthy_trimStart (s : jsstring) :
  truthyStr (trimStart s) = negb (forallb isWhiteSpace s).
Proof.
  induction s as [|c s IH]; simpl; [reflexivity|].
  destruct (isWhiteSpace c); simpl; [exact IH|reflexivity].
Qed.

Lemma forallb_trimStart (s : jsstring) :
  forallb isWhiteSpace (trimStart s) = forallb isWhiteSpace s.
Proof.
  induction s as [|c s IH]; simpl; [reflexivity|].
  destruct (isWhiteSpace c) eqn:E; simpl; [exact IH|now rewrite E].
Qed.

Lemma truthy_rev (s : jsstring) : truthyStr (rev s) = truthyStr s.
Proof.
  destruct s as [|c s]; simpl; [reflexivity|].
  destruct (rev s); reflexivity.
Qed.

Lemma forallb_rev {A} (p : A -> bool) (l : list A) :
  forallb p (rev l) = forallb p l.
Proof.
  induction l as [|x l IH]; simpl; [reflexivity|].
  rewrite forallb_app, IH. simpl. rewrite andb_true_r. apply andb_comm.
Qed.

(** [line.trim()] is truthy exactly on the lines that are not blank. *)
Lemma trim_truthy (l : jsstring) :
  truthyStr (trim l) = negb (isBlankLine l).
Proof.
  unfold trim, trimEnd, isBlankLine.
  rewrite truthy_rev, truthy_trimStart, forallb_rev, forallb_trimStart.
  reflexivity.
Qed.

End StringFacts.

(** ** Regular expressions: the matcher against the language *)

Section RegexFacts.

Lemma matches_Empty (s : jsstring) : matches Empty s = false.
Proof. induction s; simpl; auto. Qed.

Lemma matches_Eps (s : jsstring) :
  matches Eps s = match s with [] => true | _ :: _ => false end.
Proof. destruct s; simpl; [reflexivity|apply matches_Empty]. Qed.

Lemma matches_Alt (a b : regex) (s : jsstring) :
  matches (Alt a b) s = matches a s || matches b s.
Proof. revert a b; induction s as [|c s IH]; intros a b; simpl; auto. Qed.

(** A concatenation matches the strings that split into a match of each
    side. *)
Lemma matches_Seq (a b : regex) (s : jsstring) :
  matches (Seq a b) s = true <->
  exists s1 s2, s = s1 ++ s2 /\ matches a s1 = true /\ matches b s2 = true.
Proof.
  revert a; induction s as [|c s IH]; intros a.
  - simpl. rewrite andb_true_iff. split.
    + intros [Ha Hb]. exists [], []. auto.
    + intros (s1 & s2 & E & H1 & H2).
      symmetry in E. apply app_eq_nil in E as [-> ->]. auto.
  - simpl. destruct (nullable a) eqn:Na.
    + rewrite matches_Alt, orb_true_iff, IH. split.
      * intros [(s1 & s2 & -> & H1 & H2) | H].
        -- exists (c :: s1), s2. auto.
        -- exists [], (c :: s). auto.
      * intros (s1 & s2 & E & H1 & H2). destruct s1 as [|x s1].
        -- simpl in E. subst s2. right. exact H2.
        -- injection E as -> ->. left. exists s1, s2. auto.
    + rewrite IH. split.
      * intros (s1 & s2 & -> & H1 & H2). exists (c :: s1), s2. auto.
      * intros (s1 & s2 & E & H1 & H2). destruct s1 as [|x s1].
        -- simpl in H1. congruence.
        -- injection E as -> ->. exists s1, s2. auto.
Qed.

Lemma matches_Seq_assoc (a b c : regex) (s : jsstring) :
  matches (Seq (Seq a b) c) s = matches (Seq a (Seq b c)) s.
Proof.
  apply eq_true_iff_eq. rewrite !matches_Seq. split.
  - intros (s12 & s3 & -> & H12 & H3).
    apply matches_Seq in H12 as (s1 & s2 & -> & H1 & H2).
    exists s1, (s2 ++ s3). rewrite app_assoc. repeat split; auto.
    apply matches_Seq. exists s2, s3. auto.
  - intros (s1 & s23 & -> & H1 & H23).
    apply matches_Seq in H23 as (s2 & s3 & -> & H2 & H3).
    exists (s1 ++ s2), s3. rewrite app_assoc. repeat split; auto.
    apply matches_Seq. exists s1, s2. auto.
Qed.

Lemma matches_Seq_Empty (r : regex) (s : jsstring) :
  matches (Seq Empty r) s = false.
Proof. induction s; simpl; auto. Qed.

Lemma matches_Seq_Eps (r : regex) (s : jsstring) :
  matches (Seq Eps r) s = matches r s.
Proof.
  destruct s as [|c s]; simpl; [reflexivity|].
  now rewrite matches_Alt, matches_Seq_Empty.
Qed.

(** One character class, then the rest. *)
Lemma matches_Class_Seq (p : char16 -> bool) (r : regex) (s : jsstring) :
  matches (Seq (Class p) r) s =
  match s with
  | [] => false
  | c :: s' => p c && matches r s'
  end.
Proof.
  destruct s as [|c s]; simpl; [reflexivity|].
  destruct (p c); simpl; [apply matches_Seq_Eps|apply matches_Seq_Empty].
Qed.

Lemma matches_Star_Class (p : char16 -> bool) (s : jsstring) :
  matches (Star (Class p)) s = forallb p s.
Proof.
  induction s as [|c s IH]; simpl; [reflexivity|].
  destruct (p c); simpl.
  - now rewrite matches_Seq_Eps.
  - apply matches_Seq_Empty.
Qed.

(** [/^\d+$/] matches the pure integers. *)
Lemma re_index_spec (l : jsstring) : test re_index l = isIndexLine l.
Proof.
  unfold test, re_index, plus, digit. rewrite matches_Class_Seq.
  destruct l as [|c l]; simpl; [reflexivity|].
  now rewrite matches_Star_Class.
Qed.

(** The timestamp pattern matches the lines [HH:MM:SS,mmm --> HH:MM:SS,mmm]. *)
Lemma re_timestamp_spec (l : jsstring) :
  test re_timestamp l = isTimestampLine l.
Proof.
  unfold test, re_timestamp, re_stamp, digit.
  cbn [seqs app rep str lit map list_ascii_of_string].
  unfold chr.
  do 29 (repeat first [rewrite matches_Seq_assoc | rewrite matches_Seq_Eps];
         rewrite matches_Class_Seq;
         destruct l as [|? l];
         [ unfold isTimestampLine; simpl; rewrite ?andb_false_r; reflexivity
         | cbv iota ]).
  repeat first [rewrite matches_Seq_assoc | rewrite matches_Seq_Eps].
  rewrite matches_Eps.
  destruct l as [|? l].
  - unfold isTimestampLine, isStamp.
    cbn [firstn skipn forallb str_eqb lit map list_ascii_of_string].
    rewrite !(N.eqb_sym (N_of_ascii _)).
    btauto.
  - unfold isTimestampLine; simpl; rewrite ?andb_false_r; reflexivity.
Qed.

End RegexFacts.

(** ** The normalizer *)

Section Normalizer.

(** The three filters of the SRT parse keep the dialogue lines. *)
Lemma parseSrt_lines (s : jsstring) :
  parseSrt s = join [NL] (filter isDialogueLine (split NL s)).
Proof.
  unfold parseSrt. rewrite !filter_filter. f_equal.
  apply filter_ext. intros l.
  rewrite re_index_spec, re_timestamp_spec, trim_truthy.
  unfold isDialogueLine.
  destruct (isIndexLine l), (isTimestampLine l), (isBlankLine l); reflexivity.
Qed.

(** The three filters of the VTT branch drop the header lines. *)
Lemma vttToSrt_lines (s : jsstring) :
  vttToSrt s =
  join [NL] (filter (fun l => negb (isVttHeaderLine l)) (split NL s)).
Proof.
  unfold vttToSrt. rewrite !filter_filter. f_equal.
  apply filter_ext. intros l. unfold isVttHeaderLine.
  destruct (startsWith l (lit "WEBVTT")), (startsWith l (lit "Kind:")),
    (startsWith l (lit "Language:")); reflexivity.
Qed.

Lemma parseSrt_join (ls : list jsstring) :
  forallb singleLine ls = true ->
  parseSrt (join [NL] ls) = join [NL] (filter isDialogueLine ls).
Proof.
  intros H. rewrite parseSrt_lines. destruct ls as [|l ls].
  - reflexivity.
  - now rewrite split_join.
Qed.

Lemma vttToSrt_join (ls : list jsstring) :
  forallb singleLine ls = true ->
  vttToSrt (join [NL] ls) =
  join [NL] (filter (fun l => negb (isVttHeaderLine l)) ls).
Proof.
  intros H. rewrite vttToSrt_lines. destruct ls as [|l ls].
  - reflexivity.
  - now rewrite split_join.
Qed.

(** The normalized text, from the lines of the raw text. *)
Lemma normalize_lines (subtitleFile raw : jsstring) :
  normalize subtitleFile raw =
  join [NL]
    (filter (fun l => (negb (endsWith subtitleFile (lit ".vtt"))
                       || negb (isVttHeaderLine l))
                      && isDialogueLine l)
       (split NL raw)).
Proof.
  unfold normalize, convertSubtitle.
  destruct (endsWith subtitleFile (lit ".vtt")); simpl.
  - rewrite vttToSrt_lines, parseSrt_join, filter_filter.
    + reflexivity.
    + apply forallb_filter, split_singleLine.
  - apply parseSrt_lines.
Qed.

(** The lines joined by line feeds are what [join] makes of them. *)
Lemma joinedByNewlines_join (ls : list jsstring) :
  joinedByNewlines ls = join [NL] ls.
Proof.
  destruct ls as [|l rest]; [reflexivity|]. unfold joinedByNewlines.
  revert l. induction rest as [|l' rest IH]; intros l.
  - simpl. apply app_nil_r.
  - change (join [NL] (l :: l' :: rest))
      with (l ++ [NL] ++ join [NL] (l' :: rest)).
    rewrite <- IH. reflexivity.
Qed.

(** C3.  Normalizer correctness.  For the SRT text whose lines are [ls]
    (index lines, timestamp-range lines, blank lines and dialogue lines in
    any interleaving, one after the other with a line feed in between),
    the SRT parse of the [/upload-url] handler returns the text whose lines
    are exactly the dialogue lines of [ls], in their original order, with a
    line feed in between and nothing else.  Both texts are given by their
    code units ([joinedByNewlines]), not by the [join] of the handler. *)
Theorem parseSrt_keeps_dialogue_lines (ls : list jsstring) :
  forallb singleLine ls = true ->
  parseSrt (joinedByNewlines ls)
  = joinedByNewlines (filter isDialogueLine ls).
Proof.
  intros Hls. rewrite !joinedByNewlines_join. now apply parseSrt_join.
Qed.


(** A second normalization changes nothing. *)
Lemma normalize_again (subtitleFile raw : jsstring) :
  normalize subtitleFile (normalize subtitleFile raw)
  = normalize subtitleFile raw.
Proof.
  rewrite (normalize_lines subtitleFile raw).
  set (keep := fun l => (negb (endsWith subtitleFile (lit ".vtt"))
                         || negb (isVttHeaderLine l)) && isDialogueLine l).
  set (kept := filter keep (split NL raw)).
  assert (Hkept : forallb singleLine kept = true)
    by apply forallb_filter, split_singleLine.
  assert (Hagain : filter keep kept = kept).
  { subst kept. rewrite filter_filter. apply filter_ext.
    intros l. apply andb_diag. }
  unfold normalize, convertSubtitle.
  destruct (endsWith subtitleFile (lit ".vtt")) eqn:Hvtt.
  - rewrite vttToSrt_join by exact Hkept.
    rewrite parseSrt_join by now apply forallb_filter.
    rewrite filter_filter. f_equal.
    rewrite <- Hagain at 2. apply filter_ext. intros l.
    subst keep. simpl. reflexivity.
  - rewrite parseSrt_join by exact Hkept. f_equal.
    rewrite <- Hagain at 2. apply filter_ext. intros l.
    subst keep. simpl. reflexivity.
Qed.

(** C8.  Normalizer idempotence.  Normalizing a text that is already the
    output of the normalization yields the same text, for either subtitle
    format. *)
Theorem normalize_idempotent (subtitleFile raw : jsstring) :
  normalize subtitleFile (normalize subtitleFile raw)
  = normalize subtitleFile raw.
Proof. apply normalize_again. Qed.

End Normalizer.

(** ** Handler steps *)

Section Steps.

Context {A B : Type}.

Lemma wp_ret (a : A) w Q : Q (Ok a) w -> wp (ret a) w Q.
Proof. exact (fun H => H). Qed.

Lemma wp_throw (e : JsError) w (Q : Outcome A -> World -> Prop) :
  Q (Throw e) w -> wp (throw e) w Q.
Proof. exact (fun H => H). Qed.

Lemma wp_bind (m : M A) (k : A -> M B) w Q :
  wp m w (fun o w1 =>
            match o with
            | Ok a => wp (k a) w1 Q
            | Throw e => Q (Throw e) w1
            end) ->
  wp (bind m k) w Q.
Proof.
  unfold wp, bind. destruct (m w) as [[a|e] w1]; simpl; auto.
Qed.

Lemma wp_tryCatch (body : M A) (handler : JsError -> M A) w Q :
  wp body w (fun o w1 =>
               match o with
               | Ok a => Q (Ok a) w1
               | Throw e => wp (handler e) w1 Q
               end) ->
  wp (tryCatch body handler) w Q.
Proof.
  unfold wp, tryCatch. destruct (body w) as [[a|e] w1]; simpl; auto.
Qed.

Lemma wp_await (settled : M (Outcome A)) w Q :
  wp settled w (fun o w1 =>
                  match o with
                  | Ok (Ok a) => Q (Ok a) w1
                  | Ok (Throw e) => Q (Throw e) w1
                  | Throw e => Q (Throw e) w1
                  end) ->
  wp (await settled) w Q.
Proof.
  unfold wp, await. destruct (settled w) as [[[a|e]|e] w1]; simpl; auto.
Qed.

Lemma wp_orThrow (o : option A) (e : JsError) w Q :
  match o with Some a => Q (Ok a) w | None => Q (Throw e) w end ->
  wp (orThrow o e) w Q.
Proof. destruct o; exact (fun H => H). Qed.

End Steps.

Lemma wp_getTranscript w Q :
  Q (Ok (globalTranscript w)) w -> wp getTranscript w Q.
Proof. exact (fun H => H). Qed.

Lemma wp_setTranscript v w Q :
  Q (Ok tt) {| globalTranscript := v; downloads := downloads w;
               console := console w |} ->
  wp (setTranscript v) w Q.
Proof. exact (fun H => H). Qed.

Lemma wp_getDir w Q : Q (Ok (downloads w)) w -> wp getDir w Q.
Proof. exact (fun H => H). Qed.

Lemma wp_setDir d w Q :
  Q (Ok tt) {| globalTranscript := globalTranscript w; downloads := d;
               console := console w |} ->
  wp (setDir d) w Q.
Proof. exact (fun H => H). Qed.

Lemma wp_emit l w Q :
  Q (Ok tt) {| globalTranscript := globalTranscript w;
               downloads := downloads w;
               console := console w ++ [l] |} ->
  wp (emit l) w Q.
Proof. exact (fun H => H). Qed.

(** One step of symbolic execution of a handler. *)
Ltac wp_step :=
  lazymatch goal with
  | |- wp (bind _ _) _ _ => apply wp_bind
  | |- wp (tryCatch _ _) _ _ => apply wp_tryCatch
  | |- wp (await _) _ _ => apply wp_await
  | |- wp (ret _) _ _ => apply wp_ret
  | |- wp (throw _) _ _ => apply wp_throw
  | |- wp (orThrow _ _) _ _ => apply wp_orThrow
  | |- wp getTranscript _ _ => apply wp_getTranscript
  | |- wp (setTranscript _) _ _ => apply wp_setTranscript
  | |- wp getDir _ _ => apply wp_getDir
  | |- wp (setDir _) _ _ => apply wp_setDir
  | |- wp (emit _) _ _ => apply wp_emit
  | |- wp (consoleLog _) _ _ => unfold consoleLog
  | |- wp (consoleError _) _ _ => unfold consoleError
  | |- wp (resJson _) _ _ => unfold resJson
  | |- wp (resStatusJson _ _) _ _ => unfold resStatusJson
  | |- wp existsDir _ _ => unfold existsDir
  | |- wp (mkdirSync _) _ _ => unfold mkdirSync
  | |- wp readdirSync _ _ => unfold readdirSync
  | |- wp (existsSync _) _ _ => unfold existsSync
  | |- wp (readFileSync _) _ _ => unfold readFileSync
  | |- wp (unlinkSync _) _ _ => unfold unlinkSync
  | |- wp (writeFileSync _ _ _) _ _ => unfold writeFileSync
  | |- wp (execChild _ _) _ _ => unfold execChild
  | |- wp (ensureDownloads _) _ _ => unfold ensureDownloads
  | |- wp (onYtDlpExit _ _) _ _ => unfold onYtDlpExit
  | |- wp (onFfmpegExit _) _ _ => unfold onFfmpegExit
  | |- wp (cleanUpSubtitle _) _ _ => unfold cleanUpSubtitle
  | |- wp (generateResponse _ _) _ _ => unfold generateResponse
  | |- wp (synthesizePrompt _ _ _) _ _ => unfold synthesizePrompt
  | |- wp (apiLimiter _ _) _ _ => unfold apiLimiter
  | |- wp (let (_, _) := ?x in _) _ _ => destruct x eqn:?
  | |- wp (if ?b then _ else _) _ _ => destruct b eqn:?
  | |- wp (match ?x with _ => _ end) _ _ => destruct x eqn:?
  | |- match ?x with _ => _ end => destruct x eqn:?
  end.

Ltac wp_simpl := cbv beta iota; cbn [globalTranscript downloads console negb].
Ltac wp_run := repeat (wp_step; wp_simpl).

(** Use what is known about a scrutinee before splitting on it. *)
Ltac wp_known :=
  match goal with
  | H : downloads ?w = _ |- context [downloads ?w] => rewrite H
  | H : ?x = _ |- wp (match ?x with _ => _ end) _ _ => rewrite H
  | H : ?x = _ |- wp (if ?x then _ else _) _ _ => rewrite H
  | H : ?x = _ |- wp (if negb ?x then _ else _) _ _ => rewrite H
  | H : ?x = _ |- wp (let (_, _) := ?x in _) _ _ => rewrite H
  | H : ?x = _ |- wp (orThrow ?x _) _ _ => rewrite H
  | H : ?x = _ |- match ?x with _ => _ end => rewrite H
  end.

Ltac wp_walk := repeat (first [wp_known | wp_step]; wp_simpl).

(** ** Failure payloads *)

Section Failures.

Ltac payload_shape :=
  first
    [ left; reflexivity
    | right; left; repeat split; reflexivity
    | right; right; split; [left; reflexivity | split; reflexivity]
    | right; right; split; [right; reflexivity | split; reflexivity] ].

Lemma transcribe_structured env body w : wp (transcribe env body) w structured.
Proof. unfold transcribe. wp_run; payload_shape. Qed.

Lemma uploadUrl_structured env body w : wp (uploadUrl env body) w structured.
Proof. unfold uploadUrl. wp_run; payload_shape. Qed.

Lemma uploadVideo_structured env body w : wp (uploadVideo env body) w structured.
Proof. unfold uploadVideo. wp_run; payload_shape. Qed.

Lemma ask_structured env body w :
  wp (apiLimiter env (ask env body)) w structured.
Proof. unfold ask. wp_run; payload_shape. Qed.

End Failures.

(** A handler that meets a postcondition returns a response. *)
Lemma wp_returns {A} (m : M A) w (Q : Outcome A -> World -> Prop) :
  wp m w Q -> (forall e w', ~ Q (Throw e) w') ->
  exists a w', m w = (Ok a, w') /\ Q (Ok a) w'.
Proof.
  unfold wp. destruct (m w) as [[a|e] w'] eqn:E; simpl; intros H Hno.
  - eauto.
  - destruct (Hno _ _ H).
Qed.

(** C6 (as amended).  No request makes an endpoint throw: each of the four
    boundary endpoints answers every request with a response.  A failure
    response always has an [error] field; it also has a [details] field
    when it reports a caught failure (status 500) or a rate-limit rejection
    (status 429), and it has no [details] field when it reports a missing
    required field (status 400). *)
Theorem failures_are_structured (ep : endpoint) (env : Env) (body : jsval)
    (w : World) :
  exists r w',
    handle ep env body w = (Ok r, w')
    /\ (status r = 200%Z \/ validationFailure r \/ detailedFailure r).
Proof.
  apply (@wp_returns _ _ _ structured).
  - destruct ep; simpl.
    + apply transcribe_structured.
    + apply uploadUrl_structured.
    + apply uploadVideo_structured.
    + apply ask_structured.
  - intros e w' [].
Qed.

(** C6, the claim as stated fails: [POST /ask] with a body that has no
    [question] is answered [400 {error: "Question is required"}], a failure
    payload without a [details] field. *)
Lemma missing_question_has_no_details :
  let env := Scenario.env 0 [] (Throw (error "unused")) (Throw (error "unused")) in
  let r := {| status := 400;
              payload := JObj [(lit "error", jstr "Question is required")] |} in
  fst (handle Ask env (JObj []) initial) = Ok r
  /\ hasField "details" (payload r) = false.
Proof. split; reflexivity. Qed.

(** ** The transcript store *)

Section Store.

Ltac store_leaf :=
  unfold storeEffect; cbn [status globalTranscript];
  try reflexivity;
  try (intros; reflexivity);
  try match goal with
      | H : getProp (JStr _) _ = None |- _ => discriminate H
      end;
  try (split; [ intros _; unfold holdsRecognizedText;
                repeat match goal with
                       | H : Some _ = Some _ |- _ => injection H as ->
                       end;
                do 6 eexists; repeat split; try eassumption; reflexivity
              | intros H; exfalso; apply H; reflexivity ]);
  try (split; [ intros H; discriminate H | intros _; reflexivity ]).

Lemma transcribe_store env body w :
  wp (transcribe env body) w (storeEffect Transcribe env w).
Proof. unfold transcribe. wp_run; store_leaf. Qed.

Lemma uploadUrl_store env body w :
  wp (uploadUrl env body) w (storeEffect UploadUrl env w).
Proof. unfold uploadUrl. wp_run; store_leaf. Qed.

Lemma uploadVideo_store env body w :
  wp (uploadVideo env body) w (storeEffect UploadVideo env w).
Proof. unfold uploadVideo. wp_run; store_leaf. Qed.

Lemma ask_store env body w :
  wp (apiLimiter env (ask env body)) w (storeEffect Ask env w).
Proof. unfold ask. wp_run; store_leaf. Qed.

(** The store never holds anything but a string. *)
Lemma store_stays_a_string (ep : endpoint) env body w :
  (exists t, globalTranscript w = JStr t) ->
  exists t', globalTranscript (snd (handle ep env body w)) = JStr t'.
Proof.
  change (wp (handle ep env body) w (stringStore w)).
  destruct ep; simpl;
    [unfold transcribe | unfold uploadUrl | unfold uploadVideo | unfold ask];
    wp_run; unfold stringStore; cbn [globalTranscript]; eauto.
Qed.

(** A rejected [/ask] request is answered at once with the configured
    message; the route is not run. *)
Lemma limited_ask_is_rejected env body w :
  rateLimited env = true ->
  handle Ask env body w
  = (Ok {| status := 429; payload := Limiter.message |}, w).
Proof. intros H. simpl. unfold apiLimiter. now rewrite H. Qed.

(** Every successful [/upload-video] response lacks the [transcript]
    field: [transcript.text] is [undefined] on the string that
    [writeFileSync] has accepted. *)
Lemma uploadVideo_never_returns_transcript env body w r w' :
  uploadVideo env body w = (Ok r, w') ->
  status r = 200%Z ->
  field "transcript" (payload r) = None.
Proof.
  intros Hrun.
  cut (wp (uploadVideo env body) w lacksTranscript).
  { unfold wp. rewrite Hrun. exact (fun H => H). }
  clear Hrun.
  unfold uploadVideo. wp_run; unfold lacksTranscript; cbn [status payload];
    try exact I; intros H; try discriminate H;
    match goal with
    | E : getProp (JStr _) _ = Some _ |- _ => injection E as <-
    end; reflexivity.
Qed.

(** C1 (as amended).  A successful [/upload-video] ingestion overwrites the
    transcript store, at its end, with the transcript that the
    transcription boundary returned for the audio extracted from the
    upload, as returned (it does not pass through the normalizer).  No failed request of either
    ingestion endpoint, and no [/ask] or [/transcribe] request, writes the
    store. *)
Theorem store_written_by_successful_uploadVideo
    (ep : endpoint) (env : Env) (body : jsval) (w w' : World) (r : Response) :
  handle ep env body w = (Ok r, w') ->
  match ep with
  | UploadVideo =>
      (status r = 200%Z -> holdsRecognizedText env w')
      /\ (status r <> 200%Z -> globalTranscript w' = globalTranscript w)
  | UploadUrl =>
      status r <> 200%Z -> globalTranscript w' = globalTranscript w
  | Transcribe | Ask => globalTranscript w' = globalTranscript w
  end.
Proof.
  intros Hrun.
  assert (H : wp (handle ep env body) w (storeEffect ep env w)).
  { destruct ep; simpl.
    - apply transcribe_store.
    - apply uploadUrl_store.
    - apply uploadVideo_store.
    - apply ask_store. }
  unfold wp in H. rewrite Hrun in H. destruct ep; exact H.
Qed.

End Store.


(** ** Cleanup in the subtitle pipeline *)

Section Cleanup.

Lemma getProp_truthy (body v : jsval) (k : string) :
  getProp body k = Some v -> truthy v = true -> truthy body = true.
Proof.
  destruct body; simpl; intros H Hv; try reflexivity;
    try discriminate H; injection H as <-; discriminate Hv.
Qed.

(** C7 (as amended).  In the subtitle pipeline, once the download tool has
    exited with status 0 and the subtitle artifact has been located: if the
    read of the artifact fails, the request fails (status 500, the read
    error as [details]) and nothing is deleted, the scratch directory
    staying as the tool left it; if the read succeeds, the response is the
    success payload with the normalized transcript whatever the cleanup
    does, and a deletion that fails there is logged ("Error cleaning up:")
    and not propagated. *)
Theorem subtitle_cleanup_only_after_a_successful_read
    (env : Env) (body videoURL : jsval) (w : World) (url : jsstring)
    (result : ExecResult) (entries : dir) (subtitleFile : jsstring)
    (artifact : file) :
  getProp body "videoURL" = Some videoURL ->
  truthy videoURL = true ->
  toStr videoURL = Some url ->
  (downloads w = None -> mkdirError env = None) ->
  exec env (ytDlpCommand url (pathJoin (subtitleName (now env))))
    (Some match downloads w with Some d => d | None => [] end)
  = (result, Some entries) ->
  execError result = None ->
  findSubtitle (map fst entries) = Some subtitleFile ->
  findFile subtitleFile entries = Some artifact ->
  exists w',
    uploadUrl env body w =
    (Ok match readError artifact with
        | None =>
            {| status := 200;
               payload :=
                 json [("transcript",
                        JStr (normalize subtitleFile
                                (utf8Decode env (bytes artifact))));
                       ("success", JBool true)] |}
        | Some e =>
            {| status := 500;
               payload :=
                 json [("error", jstr "Failed to process video");
                       ("details", JStr (message e))] |}
        end,
     w')
    /\ (readError artifact <> None -> downloads w' = Some entries)
    /\ (readError artifact = None ->
        forall target e,
          findFile (subtitleName (now env)) entries = Some target ->
          unlinkError target = Some e ->
          downloads w' = Some entries
          /\ exists logged,
               console w' =
               logged ++ [ConsoleError [text "Error cleaning up:"; Exn e]]).
Proof.
  intros Hbody Hurl Hstr Hmk Hexec Hok Hfind Hfile.
  pose proof (getProp_truthy _ _ _ Hbody Hurl) as Htruthy.
  match goal with
  | |- exists w', ?m w = (Ok ?r, w') /\ @?P w' =>
      cut (wp m w (fun o w' => o = Ok r /\ P w'))
  end.
  { unfold wp. destruct (uploadUrl env body w) as [o w'].
    simpl. intros [-> H]. exists w'. split; [reflexivity|exact H]. }
  unfold uploadUrl.
  destruct (downloads w) as [before|] eqn:Hdir; simpl in Hexec;
    [|specialize (Hmk eq_refl)]; wp_walk.
  all: split; [|split].
  all: try (unfold normalize, convertSubtitle;
      repeat match goal with
             | H : endsWith _ _ = _ |- _ => rewrite H; clear H
             end;
      reflexivity).
  all: try (intros H; first [discriminate H | reflexivity | congruence]).
  all: intros _ target e Ht He; rewrite Ht in *; cbv beta iota in *;
    first
      [ discriminate
      | repeat match goal with
               | H : Some _ = Some _ |- _ => injection H as ->
               end;
        first
          [ congruence
          | match goal with
            | H1 : unlinkError ?f = Some ?a, H2 : unlinkError ?f = Some ?b
              |- _ => assert (a = b) by congruence; subst
            end;
            split; [reflexivity | eexists; reflexivity] ] ].
Qed.

End Cleanup.

(** ** Asking *)

Section Asking.

(** The prompt, when its three substitutions convert to strings. *)
Lemma synthesizePrompt_builds (env : Env) (question timestamp : jsval)
    (w : World) (t ts q : jsstring) :
  globalTranscript w = JStr t ->
  toStr (if truthy timestamp then timestamp
         else JNum (NumInt (now env / 1000))) = Some ts ->
  toStr question = Some q ->
  synthesizePrompt env question timestamp w = (Ok (buildPrompt t ts q), w).
Proof.
  intros Hstore Hts Hq.
  unfold synthesizePrompt, bind, getTranscript.
  rewrite Hstore. cbn [toStr orThrow ret]. rewrite Hts. cbn [orThrow ret].
  rewrite Hq. reflexivity.
Qed.

(** [/ask] with a question, let through by the limiter, the model answering
    with a first candidate whose [generated_text] is a string: the answer is
    that text, trimmed, and the prompt sent is the template over the stored
    transcript, the timestamp anchor and the question. *)
Lemma ask_answers (env : Env) (body question timestamp : jsval) (w : World)
    (t ts q : jsstring) (data first : jsval) (generated : jsstring) :
  getProp body "question" = Some question ->
  truthy question = true ->
  toStr question = Some q ->
  getProp body "timestamp" = Some timestamp ->
  toStr (if truthy timestamp then timestamp
         else JNum (NumInt (now env / 1000))) = Some ts ->
  globalTranscript w = JStr t ->
  hfPost env (lit "/" ++ MODEL_ID) (buildPrompt t ts q) = Ok data ->
  getIndex0 data = Some first ->
  getProp first "generated_text" = Some (JStr generated) ->
  rateLimited env = false ->
  handle Ask env body w
  = (Ok {| status := 200;
           payload := json [("answer", JStr (trim generated))] |}, w).
Proof.
  intros Hq Hqt Hqs Hts Htss Hstore Hpost Hfirst Hgen Hpass.
  pose proof (getProp_truthy _ _ _ Hq Hqt) as Htruthy.
  cbn [handle]. unfold apiLimiter. rewrite Hpass.
  match goal with
  | |- ?m w = (?o, w) => cut (wp m w (fun o' w' => o' = o /\ w' = w))
  end.
  { unfold wp. destruct (ask env body w) as [o w']. simpl.
    now intros [-> ->]. }
  unfold ask.
  repeat (first [ rewrite Hstore | wp_known | wp_step ];
          wp_simpl; cbn [toStr callTrim]).
  split; reflexivity.
Qed.

(** The prompt, line by line: the indentation and the blank lines of the
    template literal are part of it. *)
Lemma buildPrompt_lines (transcript timestamp question : jsstring) :
  buildPrompt transcript timestamp question =
  [NL] ++ lit "    You're an assistant helping analyze video content. Based on this transcript:"
  ++ [NL] ++ lit "    "
  ++ [NL] ++ lit "    " ++ dq ++ transcript ++ dq
  ++ [NL] ++ lit "    "
  ++ [NL] ++ lit "    At around " ++ timestamp
  ++ lit " seconds, answer the user's question: " ++ dq ++ question ++ dq
  ++ [NL] ++ lit "    ".
Proof.
  unfold buildPrompt. cbn [lit list_ascii_of_string map]. 
  repeat rewrite <- app_assoc. reflexivity.
Qed.

(** The prompt as its seven lines, in the code units of the text. *)
Lemma buildPrompt_text (transcript timestamp question : jsstring) :
  buildPrompt transcript timestamp question
  = joinedByNewlines
      [ [];
        lit "    You're an assistant helping analyze video content. Based on this transcript:";
        lit "    ";
        lit "    " ++ quoted transcript;
        lit "    ";
        lit "    At around " ++ timestamp
          ++ lit " seconds, answer the user's question: " ++ quoted question;
        lit "    " ].
Proof.
  unfold buildPrompt, joinedByNewlines, quoted, dq.
  cbn [lit list_ascii_of_string map flat_map app].
  repeat rewrite <- app_assoc. cbn [app].
  repeat rewrite <- app_assoc. reflexivity.
Qed.

Lemma digits_of_uint (d : Decimal.uint) :
  forallb isDigit (lit (NilEmpty.string_of_uint d)) = true.
Proof.
  induction d;
    cbn [NilEmpty.string_of_uint lit list_ascii_of_string map forallb];
    [reflexivity|exact IHd..].
Qed.

Lemma value_of_uint_acc (d : Decimal.uint) (acc : positive) :
  fold_left (fun v c => (10 * v + (Z.of_N c - 48))%Z)
    (lit (NilEmpty.string_of_uint d)) (Zpos acc)
  = Zpos (Pos.of_uint_acc d acc).
Proof.
  revert acc. induction d; intros acc;
    cbn [NilEmpty.string_of_uint lit list_ascii_of_string map fold_left
         Pos.of_uint_acc];
    try reflexivity; rewrite <- IHd; f_equal;
    match goal with
    | |- context [Z.of_N ?c] =>
        let v := eval vm_compute in (Z.of_N c) in change (Z.of_N c) with v
    end; lia.
Qed.

Lemma value_of_uint (d : Decimal.uint) :
  decimalValue (lit (NilEmpty.string_of_uint d)) = Z.of_N (Pos.of_uint d).
Proof.
  unfold decimalValue.
  induction d;
    cbn [NilEmpty.string_of_uint lit list_ascii_of_string map fold_left
         Pos.of_uint];
    try reflexivity; try exact IHd;
    match goal with
    | |- fold_left _ _ ?a = _ =>
        let v := eval vm_compute in a in change a with v
    end; apply value_of_uint_acc.
Qed.

(** The decimal rendering of a natural number: at least one digit, digits
    only, and the number they denote is the number rendered. *)
Lemma showZ_decimal (z : Z) :
  (0 <= z)%Z ->
  showZ z <> []
  /\ forallb isDigit (showZ z) = true
  /\ decimalValue (showZ z) = z.
Proof.
  intros Hz. unfold showZ.
  destruct z as [|p|p]; [repeat split; discriminate| |lia].
  assert (H : Z.of_N (Pos.of_uint (Pos.to_uint p)) = Zpos p)
    by now rewrite DecimalPos.Unsigned.of_to.
  cbn [Z.to_int NilZero.string_of_int].
  destruct (Pos.to_uint p) as [|d|d|d|d|d|d|d|d|d|d] eqn:E;
    [discriminate H|..];
    unfold NilZero.string_of_uint; (split; [|split]);
    first [ apply digits_of_uint
          | rewrite value_of_uint; exact H
          | cbn [NilEmpty.string_of_uint lit list_ascii_of_string map];
            discriminate ].
Qed.

(** C9.  [/ask] with a question while the store still holds its initial
    empty string.  The synthesized prompt is the text of seven lines
    written out below: its fourth line is the transcript between double
    quotes, here two double quotes with nothing in between, the empty
    transcript; its sixth line carries the timestamp anchor and the
    question.  When the remote model responds to that prompt (its first
    candidate carrying a generated text), the request, let through by the
    limiter, completes with status 200 and that text, trimmed, as the
    answer. *)
Theorem ask_before_any_transcript (env : Env) (body question timestamp : jsval)
    (w : World) (ts q : jsstring) (data first : jsval) (generated : jsstring) :
  let prompt :=
    joinedByNewlines
      [ [];
        lit "    You're an assistant helping analyze video content. Based on this transcript:";
        lit "    ";
        lit "    " ++ quoted [];
        lit "    ";
        lit "    At around " ++ ts
          ++ lit " seconds, answer the user's question: " ++ quoted q;
        lit "    " ] in
  globalTranscript w = JStr [] ->
  getProp body "question" = Some question ->
  truthy question = true ->
  toStr question = Some q ->
  getProp body "timestamp" = Some timestamp ->
  toStr (if truthy timestamp then timestamp
         else JNum (NumInt (now env / 1000))) = Some ts ->
  hfPost env (lit "/" ++ MODEL_ID) prompt = Ok data ->
  getIndex0 data = Some first ->
  getProp first "generated_text" = Some (JStr generated) ->
  rateLimited env = false ->
  synthesizePrompt env question timestamp w = (Ok prompt, w)
  /\ handle Ask env body w
     = (Ok {| status := 200;
              payload := json [("answer", JStr (trim generated))] |}, w).
Proof.
  intros prompt Hstore Hq Hqt Hqs Hts Htss Hpost Hfirst Hgen Hpass.
  assert (Hprompt : prompt = buildPrompt [] ts q)
    by (symmetry; apply buildPrompt_text).
  rewrite Hprompt in *. split.
  - now apply synthesizePrompt_builds.
  - now apply (ask_answers env body question timestamp w [] ts q data first).
Qed.

(** C10.  [/ask] with a question and a missing or falsy [timestamp].  The
    synthesized prompt is the text of seven lines written out below, whose
    sixth line reads "At around [anchor] seconds, ...": the anchor is the
    clock in whole seconds ([Date.now()] divided by 1000, floored), in
    decimal; for a clock that is not negative it is a non-empty string of
    digits whose value is that number.  The request goes on with that
    prompt and completes when the model answers. *)
Theorem ask_defaults_timestamp_to_clock (env : Env)
    (body question timestamp : jsval) (w : World) (t q : jsstring) :
  let anchor := showZ (now env / 1000) in
  let prompt :=
    joinedByNewlines
      [ [];
        lit "    You're an assistant helping analyze video content. Based on this transcript:";
        lit "    ";
        lit "    " ++ quoted t;
        lit "    ";
        lit "    At around " ++ anchor
          ++ lit " seconds, answer the user's question: " ++ quoted q;
        lit "    " ] in
  getProp body "question" = Some question ->
  truthy question = true ->
  toStr question = Some q ->
  getProp body "timestamp" = Some timestamp ->
  truthy timestamp = false ->
  globalTranscript w = JStr t ->
  ((0 <= now env)%Z ->
   anchor <> []
   /\ forallb isDigit anchor = true
   /\ decimalValue anchor = (now env / 1000)%Z)
  /\ synthesizePrompt env question timestamp w = (Ok prompt, w)
  /\ forall data first generated,
       hfPost env (lit "/" ++ MODEL_ID) prompt = Ok data ->
       getIndex0 data = Some first ->
       getProp first "generated_text" = Some (JStr generated) ->
       rateLimited env = false ->
       handle Ask env body w
       = (Ok {| status := 200;
                payload := json [("answer", JStr (trim generated))] |}, w).
Proof.
  intros anchor prompt Hq Hqt Hqs Hts Hfalsy Hstore.
  assert (Hprompt : prompt = buildPrompt t anchor q)
    by (symmetry; apply buildPrompt_text).
  assert (Hanchor : toStr (if truthy timestamp then timestamp
                           else JNum (NumInt (now env / 1000)))
                    = Some anchor)
    by now rewrite Hfalsy.
  rewrite Hprompt. split; [|split].
  - intros Hclock.
    assert (Hsec : (0 <= now env / 1000)%Z) by (apply Z.div_pos; lia).
    exact (showZ_decimal _ Hsec).
  - now apply synthesizePrompt_builds.
  - intros data first generated Hpost Hfirst Hgen Hpass.
    now apply (ask_answers env body question timestamp w t anchor q data
                 first).
Qed.

End Asking.

(** ** Worked requests *)

Section Runs.

Import Scenario.

(** A line that is a pure integer is never normalizer output. *)
Lemma index_line_is_not_normalized (subtitleFile raw : jsstring) :
  normalize subtitleFile raw <> lit "1".
Proof.
  intros H. pose proof (normalize_again subtitleFile raw) as Hid.
  rewrite H in Hid. unfold normalize, convertSubtitle in Hid.
  destruct (endsWith subtitleFile (lit ".vtt")); vm_compute in Hid;
    discriminate Hid.
Qed.

(** C1, the claim as stated fails, on both counts.  A successful
    [/upload-url] ingestion that produces the transcript ["hello"] leaves
    the store as it was (empty); and a successful [/upload-video] ingestion
    writes the recognized text ["1"], which is no output of the
    normalizer. *)
Lemma store_not_written_from_normalizer :
  (fst (uploadUrl urlEnv urlBody initial)
   = Ok {| status := 200;
           payload := JObj [(lit "transcript", jstr "hello");
                            (lit "success", JBool true)] |}
   /\ globalTranscript (snd (uploadUrl urlEnv urlBody initial)) = JStr [])
  /\ (fst (uploadVideo (videoEnv (lit "1")) videoBody initial)
      = Ok videoResponse
      /\ globalTranscript (snd (uploadVideo (videoEnv (lit "1")) videoBody initial))
         = jstr "1"
      /\ forall subtitleFile raw, normalize subtitleFile raw <> lit "1").
Proof.
  repeat split; try (vm_compute; reflexivity).
  apply index_line_is_not_normalized.
Qed.

(** The amended C1 at a concrete request: [/upload-video] at time 1000,
    the speech service recognizing ["hi there"]. *)
Lemma store_written_by_successful_uploadVideo_witness :
  handle UploadVideo (videoEnv (lit "hi there")) videoBody initial
  = (Ok videoResponse, videoWorld (lit "hi there"))
  /\ ((status videoResponse = 200%Z ->
       holdsRecognizedText (videoEnv (lit "hi there"))
         (videoWorld (lit "hi there")))
      /\ (status videoResponse <> 200%Z ->
          globalTranscript (videoWorld (lit "hi there"))
          = globalTranscript initial)).
Proof.
  split.
  - vm_compute. reflexivity.
  - apply (store_written_by_successful_uploadVideo UploadVideo
             (videoEnv (lit "hi there")) videoBody initial
             (videoWorld (lit "hi there")) videoResponse).
    vm_compute. reflexivity.
Defined.

(** C2, at a failing input.  [/upload-video] succeeds, the transcription
    boundary having returned the text ["hi there"]: the text is stored, but
    the response body is [{success: true, timestamp: 1000}], without a
    [transcript] field, because [transcript.text] is read off a string. *)
Lemma uploadVideo_response_lacks_transcript :
  transcribePost (videoEnv (lit "hi there"))
    (base64Encode (videoEnv (lit "hi there")) (lit "RIFF"))
  = Ok (JObj [(lit "transcript", jstr "hi there")])
  /\ fst (uploadVideo (videoEnv (lit "hi there")) videoBody initial)
     = Ok {| status := 200;
             payload := JObj [(lit "success", JBool true);
                              (lit "timestamp", JNum (NumInt 1000))] |}
  /\ field "transcript"
       (JObj [(lit "success", JBool true);
              (lit "timestamp", JNum (NumInt 1000))]) = None
  /\ globalTranscript
       (snd (uploadVideo (videoEnv (lit "hi there")) videoBody initial))
     = jstr "hi there".
Proof. repeat split; vm_compute; reflexivity. Qed.

(** C3 at a concrete SRT text of two cues. *)
Lemma parseSrt_keeps_dialogue_lines_witness :
  let ls := [lit "1"; lit "00:00:01,000 --> 00:00:02,000"; lit "hello";
             lit ""; lit "2"; lit "00:00:02,500 --> 00:00:04,000";
             lit "  "; lit "second line, 42"] in
  (forallb singleLine ls = true
   /\ joinedByNewlines ls = lit "1
00:00:01,000 --> 00:00:02,000
hello

2
00:00:02,500 --> 00:00:04,000
  
second line, 42")
  /\ parseSrt (lit "1
00:00:01,000 --> 00:00:02,000
hello

2
00:00:02,500 --> 00:00:04,000
  
second line, 42")
     = lit "hello
second line, 42".
Proof.
  intros ls. split; [split; reflexivity|].
  exact (parseSrt_keeps_dialogue_lines ls eq_refl).
Defined.


(** C7, the claim as stated fails, on both paths.  When the located
    artifact cannot be read, the request fails and the artifact is still in
    the scratch directory; when it is read, the request succeeds and the
    artifact is still there too, the cleanup having looked for
    [subtitle_1000.srt]. *)
Lemma subtitle_artifact_survives_the_request :
  (fst (uploadUrl (vttEnv unreadableFile) urlBody initial)
   = Ok {| status := 500;
           payload := JObj [(lit "error", jstr "Failed to process video");
                            (lit "details", JStr (message eacces))] |}
   /\ downloads (snd (uploadUrl (vttEnv unreadableFile) urlBody initial))
      = Some [(vttName, unreadableFile)])
  /\ (fst (uploadUrl (vttEnv (plainFile oneCue)) urlBody initial)
      = Ok {| status := 200;
              payload := JObj [(lit "transcript", jstr "hello");
                               (lit "success", JBool true)] |}
      /\ downloads (snd (uploadUrl (vttEnv (plainFile oneCue)) urlBody initial))
         = Some [(vttName, plainFile oneCue)]).
Proof. repeat split; vm_compute; reflexivity. Qed.

(** The amended C7 at a concrete request: the artifact is read, and the
    file the cleanup tries to delete cannot be deleted. *)
Lemma subtitle_cleanup_only_after_a_successful_read_witness :
  let entries := [(lit "subtitle_1000.srt", stuckFile oneCue)] in
  (getProp urlBody "videoURL" = Some (jstr "http://v/1")
   /\ truthy (jstr "http://v/1") = true
   /\ toStr (jstr "http://v/1") = Some (lit "http://v/1")
   /\ exec stuckEnv
        (ytDlpCommand (lit "http://v/1") (pathJoin (subtitleName 1000)))
        (Some []) = (quiet, Some entries)
   /\ findSubtitle (map fst entries) = Some (lit "subtitle_1000.srt")
   /\ findFile (lit "subtitle_1000.srt") entries = Some (stuckFile oneCue))
  /\ exists w',
       uploadUrl stuckEnv urlBody initial
       = (Ok {| status := 200;
                payload := JObj [(lit "transcript", jstr "hello");
                                 (lit "success", JBool true)] |}, w')
       /\ downloads w' = Some entries
       /\ exists logged,
            console w' =
            logged ++ [ConsoleError [text "Error cleaning up:"; Exn eperm]].
Proof.
  intros entries. split; [repeat split|].
  destruct (subtitle_cleanup_only_after_a_successful_read
              stuckEnv urlBody (jstr "http://v/1") initial (lit "http://v/1")
              quiet entries (lit "subtitle_1000.srt") (stuckFile oneCue)
              eq_refl eq_refl eq_refl (fun _ => eq_refl) eq_refl eq_refl
              eq_refl eq_refl)
    as (w' & Hrun & _ & Hlogged).
  destruct (Hlogged eq_refl (stuckFile oneCue) eperm eq_refl eq_refl)
    as (Hdir & logged & Hconsole).
  exists w'. repeat split.
  - exact Hrun.
  - exact Hdir.
  - exists logged. exact Hconsole.
Defined.

(** C9 at a concrete request: the first [/ask] of a fresh process. *)
Lemma ask_before_any_transcript_witness :
  let generated := lit "  Nothing has been said yet. " in
  let prompt :=
    joinedByNewlines
      [ lit "";
        lit "    You're an assistant helping analyze video content. Based on this transcript:";
        lit "    ";
        lit "    " ++ [34; 34]%N;
        lit "    ";
        lit "    At around 61 seconds, answer the user's question: "
          ++ [34%N] ++ lit "What is said?" ++ [34%N];
        lit "    " ] in
  (globalTranscript initial = JStr []
   /\ getProp askBody "question" = Some (jstr "What is said?")
   /\ truthy (jstr "What is said?") = true
   /\ toStr (jstr "What is said?") = Some (lit "What is said?")
   /\ getProp askBody "timestamp" = Some JUndefined
   /\ toStr (JNum (NumInt (now (askEnv generated) / 1000))) = Some (lit "61")
   /\ hfPost (askEnv generated) (lit "/" ++ MODEL_ID) prompt
      = Ok (JArr [JObj [(lit "generated_text", JStr generated)]])
   /\ rateLimited (askEnv generated) = false)
  /\ synthesizePrompt (askEnv generated) (jstr "What is said?") JUndefined
       initial = (Ok prompt, initial)
  /\ handle Ask (askEnv generated) askBody initial
     = (Ok {| status := 200;
              payload := JObj [(lit "answer",
                                jstr "Nothing has been said yet.")] |},
        initial).
Proof.
  intros generated prompt. split; [repeat split|].
  exact (ask_before_any_transcript (askEnv generated) askBody
           (jstr "What is said?") JUndefined initial (lit "61")
           (lit "What is said?")
           (JArr [JObj [(lit "generated_text", JStr generated)]])
           (JObj [(lit "generated_text", JStr generated)]) generated
           eq_refl eq_refl eq_refl eq_refl eq_refl eq_refl eq_refl eq_refl
           eq_refl eq_refl).
Defined.

(** C10 at a concrete request: no [timestamp], the clock at 61500 ms. *)
Lemma ask_defaults_timestamp_to_clock_witness :
  let prompt :=
    joinedByNewlines
      [ lit "";
        lit "    You're an assistant helping analyze video content. Based on this transcript:";
        lit "    ";
        lit "    " ++ [34%N] ++ lit "hi there" ++ [34%N];
        lit "    ";
        lit "    At around 61 seconds, answer the user's question: "
          ++ [34%N] ++ lit "What is said?" ++ [34%N];
        lit "    " ] in
  let w := videoWorld (lit "hi there") in
  (getProp askBody "question" = Some (jstr "What is said?")
   /\ truthy (jstr "What is said?") = true
   /\ toStr (jstr "What is said?") = Some (lit "What is said?")
   /\ getProp askBody "timestamp" = Some JUndefined
   /\ truthy JUndefined = false
   /\ globalTranscript w = jstr "hi there"
   /\ now (askEnv (lit "ok")) = 61500%Z
   /\ hfPost (askEnv (lit "ok")) (lit "/" ++ MODEL_ID) prompt
      = Ok (JArr [JObj [(lit "generated_text", jstr "ok")]])
   /\ rateLimited (askEnv (lit "ok")) = false)
  /\ (decimalValue (lit "61") = 61%Z
      /\ synthesizePrompt (askEnv (lit "ok")) (jstr "What is said?")
           JUndefined w
         = (Ok prompt, w))
  /\ handle Ask (askEnv (lit "ok")) askBody w
     = (Ok {| status := 200; payload := JObj [(lit "answer", jstr "ok")] |},
        w).
Proof.
  intros prompt w. split; [repeat split|].
  destruct (ask_defaults_timestamp_to_clock (askEnv (lit "ok")) askBody
              (jstr "What is said?") JUndefined w (lit "hi there")
              (lit "What is said?") eq_refl eq_refl eq_refl eq_refl eq_refl
              eq_refl)
    as (Hanchor & Hprompt & Hanswer).
  split; [split|].
  - exact (proj2 (proj2 (Hanchor ltac:(vm_compute; discriminate)))).
  - exact Hprompt.
  - exact (Hanswer (JArr [JObj [(lit "generated_text", jstr "ok")]])
             (JObj [(lit "generated_text", jstr "ok")]) (lit "ok")
             eq_refl eq_refl eq_refl eq_refl).
Defined.

End Runs.

(** * Further properties *)

(** ** The normalizer, beyond the specification *)

Section NormalizerMore.

Lemma forallb_filter_and {A} (p q : A -> bool) (l : list A) :
  forallb q (filter (fun x => p x && q x) l) = true.
Proof.
  induction l as [|x l IH]; simpl; [reflexivity|].
  destruct (p x), (q x) eqn:E; simpl; try rewrite E; auto.
Qed.

(** X1.  Whatever the subtitle text, every line of a non-empty normalized
    transcript is a dialogue line: no index line, no timestamp-range line
    and no blank line is left, for either subtitle format. *)
Theorem normalize_leaves_dialogue_only (subtitleFile raw : jsstring) :
  normalize subtitleFile raw = []
  \/ forallb isDialogueLine (split NL (normalize subtitleFile raw)) = true.
Proof.
  rewrite normalize_lines.
  set (keep := fun l => (negb (endsWith subtitleFile (lit ".vtt"))
                         || negb (isVttHeaderLine l)) && isDialogueLine l).
  destruct (filter keep (split NL raw)) as [|l ls] eqn:E.
  - left. reflexivity.
  - right. rewrite split_join.
    + rewrite <- E. apply forallb_filter_and.
    + rewrite <- E. apply forallb_filter, split_singleLine.
Qed.

Lemma join_length (l : jsstring) (ls : list jsstring) :
  S (List.length (join [NL] (l :: ls)))
  = list_sum (map (fun x => S (List.length x)) (l :: ls)).
Proof.
  revert l; induction ls as [|l' ls IH]; intros l.
  - unfold list_sum. simpl. lia.
  - change (join [NL] (l :: l' :: ls)) with (l ++ NL :: join [NL] (l' :: ls)).
    rewrite length_app. simpl List.length. specialize (IH l').
    unfold list_sum in *. simpl in *. lia.
Qed.

Lemma filter_weight {A} (p : A -> bool) (f : A -> nat) (l : list A) :
  list_sum (map f (filter p l)) <= list_sum (map f l).
Proof.
  unfold list_sum. induction l as [|x l IH]; simpl; [lia|].
  destruct (p x); simpl; lia.
Qed.

Lemma join_filter_length (p : jsstring -> bool) (ls : list jsstring) :
  List.length (join [NL] (filter p ls)) <= List.length (join [NL] ls).
Proof.
  destruct (filter p ls) as [|k ks] eqn:E; [simpl; lia|].
  destruct ls as [|l ls]; [discriminate E|].
  apply le_S_n. rewrite !join_length, <- E. apply filter_weight.
Qed.

(** X2.  Normalization never makes a text longer. *)
Theorem normalize_never_grows (subtitleFile raw : jsstring) :
  List.length (normalize subtitleFile raw) <= List.length raw.
Proof.
  rewrite normalize_lines.
  rewrite <- (join_split raw) at 2. apply join_filter_length.
Qed.

Lemma split_break (a b : jsstring) :
  split NL (a ++ NL :: b) = split NL a ++ split NL b.
Proof.
  induction a as [|c a IH]; [reflexivity|].
  simpl. destruct (N.eqb c NL).
  - now rewrite IH.
  - rewrite IH. pose proof (split_nonempty NL a) as Hne.
    destruct (split NL a); [contradiction|reflexivity].
Qed.

Lemma join_app (ks ls : list jsstring) :
  ks <> [] -> ls <> [] ->
  join [NL] (ks ++ ls) = join [NL] ks ++ NL :: join [NL] ls.
Proof.
  intros Hk Hl. induction ks as [|k ks IH]; [contradiction|].
  destruct ks as [|k' ks].
  - destruct ls; [contradiction|reflexivity].
  - change (join [NL] ((k :: k' :: ks) ++ ls))
      with (k ++ NL :: join [NL] ((k' :: ks) ++ ls)).
    rewrite IH by discriminate.
    change (join [NL] (k :: k' :: ks)) with (k ++ NL :: join [NL] (k' :: ks)).
    now rewrite <- app_assoc.
Qed.

Lemma join_dialogue_nil (ks : list jsstring) :
  forallb isDialogueLine ks = true -> join [NL] ks = [] -> ks = [].
Proof.
  destruct ks as [|k ks]; [reflexivity|].
  simpl forallb. intros H E. apply andb_true_iff in H as [Hk _].
  destruct k as [|c k].
  - discriminate Hk.
  - destruct ks; discriminate E.
Qed.

(** X3.  The SRT parse works piece by piece: the parse of two texts joined
    by a line break is the parse of each, with a line break between them
    when neither is empty. *)
Theorem parseSrt_of_two_pieces (a b : jsstring) :
  parseSrt (a ++ NL :: b) = glue (parseSrt a) (parseSrt b).
Proof.
  rewrite !parseSrt_lines, split_break, filter_app.
  set (ka := filter isDialogueLine (split NL a)).
  set (kb := filter isDialogueLine (split NL b)).
  assert (Ha : forallb isDialogueLine ka = true) by apply forallb_filter_self.
  assert (Hb : forallb isDialogueLine kb = true) by apply forallb_filter_self.
  destruct ka as [|x ka].
  - reflexivity.
  - destruct kb as [|y kb].
    + rewrite app_nil_r. unfold glue.
      destruct (join [NL] (x :: ka)) eqn:E; [|reflexivity].
      now apply join_dialogue_nil in E.
    + rewrite join_app by discriminate. unfold glue.
      destruct (join [NL] (x :: ka)) eqn:E1;
        [now apply join_dialogue_nil in E1|].
      destruct (join [NL] (y :: kb)) eqn:E2;
        [now apply join_dialogue_nil in E2|].
      reflexivity.
Qed.

End NormalizerMore.

Section LineEndings.

Lemma filter_map_swap {A B} (p : B -> bool) (f : A -> B) (l : list A) :
  filter p (map f l) = map f (filter (fun x => p (f x)) l).
Proof.
  induction l as [|x l IH]; simpl; [reflexivity|].
  destruct (p (f x)); simpl; now rewrite IH.
Qed.

Lemma isStamp_ends_in_digit (y : jsstring) :
  isStamp y = true -> exists y' d, y = y' ++ [d] /\ isDigit d = true.
Proof.
  intros H.
  do 12 (destruct y as [|? y]; [discriminate H|]).
  destruct y; [|discriminate H].
  unfold isStamp in H. cbn [forallb] in H.
  apply andb_true_iff in H as [H _].
  do 8 (apply andb_true_iff in H as [_ H]).
  apply andb_true_iff in H as [H _].
  match goal with
  | |- exists y' d, ?a :: ?b :: ?c :: ?d0 :: ?e :: ?f :: ?g :: ?h :: ?i
                      :: ?j :: ?k :: [?z] = _ /\ _ =>
      exists [a; b; c; d0; e; f; g; h; i; j; k], z
  end.
  split; [reflexivity|exact H].
Qed.

Lemma carriage_return_hides_timestamp (l : jsstring) :
  isTimestampLine (l ++ [CR]) = false.
Proof.
  destruct (isTimestampLine (l ++ [CR])) eqn:E; [exfalso|reflexivity].
  unfold isTimestampLine in E. apply andb_true_iff in E as [_ E].
  apply isStamp_ends_in_digit in E as (y' & d & Ey & Hd).
  rewrite skipn_app in Ey.
  destruct (17 - List.length l) as [|k] eqn:Hk.
  - change (skipn 0 [CR]) with [CR] in Ey.
    apply app_inj_tail in Ey as [_ <-]. discriminate Hd.
  - assert (Hlen : List.length l <= 17) by lia.
    rewrite (skipn_all2 l Hlen) in Ey.
    replace (skipn (S k) [CR]) with (@nil char16) in Ey
      by (destruct k; reflexivity).
    destruct y'; discriminate Ey.
Qed.

Lemma carriage_return_hides_index (l : jsstring) :
  isIndexLine (l ++ [CR]) = false.
Proof.
  unfold isIndexLine. destruct (l ++ [CR]) eqn:E.
  - reflexivity.
  - rewrite <- E, forallb_app. simpl. now rewrite andb_false_r.
Qed.

Lemma carriage_return_is_blank (l : jsstring) :
  isBlankLine (l ++ [CR]) = isBlankLine l.
Proof.
  unfold isBlankLine. rewrite forallb_app. simpl. now rewrite andb_true_r.
Qed.

Lemma carriage_return_singleLine (l : jsstring) :
  singleLine (l ++ [CR]) = singleLine l.
Proof.
  unfold singleLine. rewrite forallb_app. simpl. now rewrite andb_true_r.
Qed.

(** X4.  On a text whose lines end in a carriage return (the CRLF line
    endings of Windows), the SRT parse removes the blank lines only: every
    index line and every timestamp-range line stays in the transcript, with
    its carriage return. *)
Theorem parseSrt_on_CRLF_text (ls : list jsstring) :
  forallb singleLine ls = true ->
  parseSrt (join [NL] (map (fun l => l ++ [CR]) ls))
  = join [NL] (map (fun l => l ++ [CR])
                 (filter (fun l => negb (isBlankLine l)) ls)).
Proof.
  intros H. rewrite parseSrt_join.
  - rewrite filter_map_swap. do 2 f_equal. apply filter_ext. intros l.
    unfold isDialogueLine.
    now rewrite carriage_return_hides_index, carriage_return_hides_timestamp,
      carriage_return_is_blank.
  - rewrite <- H. clear H. induction ls as [|l ls IH]; [reflexivity|].
    simpl. now rewrite carriage_return_singleLine, IH.
Qed.

Lemma digit_range (c : char16) :
  isDigit c = true -> (48 <= c <= 57)%N.
Proof.
  unfold isDigit. intros H. apply andb_true_iff in H as [H1 H2].
  apply N.leb_le in H1. apply N.leb_le in H2. lia.
Qed.

Lemma digit_is_no_whitespace (c : char16) :
  isDigit c = true -> isWhiteSpace c = false.
Proof.
  intros H. apply digit_range in H. unfold isWhiteSpace.
  apply orb_false_iff. split.
  - cbn [existsb]. repeat (apply orb_false_iff; split);
      try reflexivity; apply N.eqb_neq; lia.
  - apply andb_false_iff. left. apply N.leb_gt. lia.
Qed.

Lemma digit_is_no_letter (c k : char16) :
  isDigit c = true -> (57 < k)%N -> N.eqb c k = false.
Proof.
  intros H Hk. apply digit_range in H. apply N.eqb_neq. lia.
Qed.

Lemma isDotStamp_shape (y : jsstring) :
  isDotStamp y = true ->
  exists h1 h2 rest,
    y = h1 :: h2 :: 58%N :: rest
    /\ isDigit h1 = true /\ isDigit h2 = true.
Proof.
  intros H.
  do 12 (destruct y as [|? y]; [discriminate H|]).
  destruct y; [|discriminate H].
  unfold isDotStamp in H. cbn [forallb str_eqb] in H.
  apply andb_true_iff in H as [Hd Hs].
  apply andb_true_iff in Hd as [H1 Hd].
  apply andb_true_iff in Hd as [H2 _].
  apply andb_true_iff in Hs as [Hc _].
  apply N.eqb_eq in Hc. cbn in Hc. subst.
  eauto 10.
Qed.

Lemma dot_stamp_is_no_stamp (y : jsstring) :
  isDotStamp y = true -> isStamp y = false.
Proof.
  intros H.
  do 12 (destruct y as [|? y]; [discriminate H|]).
  destruct y; [|reflexivity].
  unfold isDotStamp in H. apply andb_true_iff in H as [_ Hs].
  cbn [str_eqb] in Hs.
  apply andb_true_iff in Hs as [_ Hs]. apply andb_true_iff in Hs as [_ Hs].
  apply andb_true_iff in Hs as [Hs _]. apply N.eqb_eq in Hs. cbn in Hs.
  subst. unfold isStamp. apply andb_false_iff. right.
  cbn [str_eqb]. apply andb_false_iff. right.
  apply andb_false_iff. right. reflexivity.
Qed.

(** A WebVTT cue timing line is, for the SRT parse, a dialogue line, and
    it is no header line. *)
Lemma vtt_timing_is_dialogue (l : jsstring) :
  isVttTimingLine l = true ->
  isDialogueLine l = true /\ isVttHeaderLine l = false.
Proof.
  intros H. unfold isVttTimingLine in H.
  apply andb_true_iff in H as [H _]. apply andb_true_iff in H as [Hdot _].
  destruct (isDotStamp_shape _ Hdot) as (h1 & h2 & rest & E & H1 & H2).
  assert (El : l = h1 :: h2 :: 58%N :: rest ++ skipn 12 l).
  { rewrite <- (firstn_skipn 12 l) at 1. now rewrite E. }
  split.
  - unfold isDialogueLine.
    assert (Hi : isIndexLine l = false).
    { rewrite El. unfold isIndexLine. cbn [forallb]. rewrite H1, H2.
      reflexivity. }
    assert (Hb : isBlankLine l = false).
    { rewrite El. unfold isBlankLine. cbn [forallb].
      now rewrite (digit_is_no_whitespace _ H1). }
    assert (Ht : isTimestampLine l = false).
    { unfold isTimestampLine. now rewrite (dot_stamp_is_no_stamp _ Hdot). }
    now rewrite Hi, Hb, Ht.
  - unfold isVttHeaderLine. rewrite El.
    cbn [startsWith lit map list_ascii_of_string].
    rewrite !(digit_is_no_letter h1 _ H1) by reflexivity. reflexivity.
Qed.

(** X5.  A WebVTT cue timing line ([HH:MM:SS.mmm --> HH:MM:SS.mmm], with
    dots) is not removed by the normalization, whatever the subtitle
    format: it is a line of the transcript. *)
Theorem normalize_keeps_vtt_timing_lines
    (subtitleFile : jsstring) (ls : list jsstring) (l : jsstring) :
  forallb singleLine ls = true ->
  In l ls ->
  isVttTimingLine l = true ->
  In l (split NL (normalize subtitleFile (join [NL] ls))).
Proof.
  intros Hls Hin Hl.
  destruct (vtt_timing_is_dialogue l Hl) as [Hd Hh].
  rewrite normalize_lines.
  set (keep := fun l => (negb (endsWith subtitleFile (lit ".vtt"))
                         || negb (isVttHeaderLine l)) && isDialogueLine l).
  assert (Hsplit : split NL (join [NL] ls) = ls).
  { destruct ls as [|x ls]; [destruct Hin|]. now apply split_join. }
  rewrite Hsplit.
  assert (Hkept : In l (filter keep ls)).
  { apply filter_In. split; [exact Hin|]. unfold keep.
    rewrite Hh, Hd. now rewrite orb_true_r. }
  destruct (filter keep ls) as [|k ks] eqn:E; [destruct Hkept|].
  rewrite split_join; [exact Hkept|].
  rewrite <- E. now apply forallb_filter.
Qed.

End LineEndings.

(** ** What every response comes with *)

Section Responses.

Ltac accounted_leaf :=
  unfold accounted; cbn [status payload globalTranscript downloads console];
  split; [|split];
  [ intros H; first [discriminate H | split; reflexivity]
  | intros H; first [discriminate H | do 3 eexists; split; reflexivity]
  | intros H; first [discriminate H
                    | cbn [successBody];
                      first [reflexivity | eexists; reflexivity] ] ].

Lemma transcribe_accounted env body w :
  wp (transcribe env body) w (accounted Transcribe w).
Proof. unfold transcribe. wp_run; accounted_leaf. Qed.

Lemma uploadUrl_accounted env body w :
  wp (uploadUrl env body) w (accounted UploadUrl w).
Proof. unfold uploadUrl. wp_run; accounted_leaf. Qed.

Lemma uploadVideo_accounted env body w :
  wp (uploadVideo env body) w (accounted UploadVideo w).
Proof.
  unfold uploadVideo. wp_run;
    try match goal with
        | E : getProp (JStr _) _ = Some _ |- _ => injection E as <-
        end;
    accounted_leaf.
Qed.

Lemma ask_accounted env body w :
  wp (apiLimiter env (ask env body)) w (accounted Ask w).
Proof.
  unfold ask. wp_run;
    try match goal with
        | E : callTrim ?a = Some _ |- _ =>
            destruct a; try discriminate E; injection E as <-
        end;
    accounted_leaf.
Qed.

Lemma handle_accounted ep env body w r w' :
  handle ep env body w = (Ok r, w') -> accounted ep w (Ok r) w'.
Proof.
  intros Hrun.
  assert (H : wp (handle ep env body) w (accounted ep w)).
  { destruct ep; simpl.
    - apply transcribe_accounted.
    - apply uploadUrl_accounted.
    - apply uploadVideo_accounted.
    - apply ask_accounted. }
  unfold wp in H. now rewrite Hrun in H.
Qed.

End Responses.

Section ResponseFacts.

(** X6.  A validation failure (status 400) of any endpoint has touched
    neither the transcript store nor the scratch directory: nothing was
    created, written or deleted, and no tool was run. *)
Theorem validation_failure_touches_nothing
    (ep : endpoint) (env : Env) (body : jsval) (w w' : World) (r : Response) :
  handle ep env body w = (Ok r, w') ->
  status r = 400%Z ->
  globalTranscript w' = globalTranscript w /\ downloads w' = downloads w.
Proof.
  intros Hrun H400.
  destruct (handle_accounted _ _ _ _ _ _ Hrun) as (H & _ & _). auto.
Qed.

(** X7.  No caught failure is silent: when an endpoint answers with status
    500, the last line of the console is a [console.error] of the error
    caught, and the [details] of the response is the message of that very
    error. *)
Theorem caught_failure_is_logged
    (ep : endpoint) (env : Env) (body : jsval) (w w' : World) (r : Response) :
  handle ep env body w = (Ok r, w') ->
  status r = 500%Z ->
  exists logged label e,
    console w' = logged ++ [ConsoleError [Text label; Exn e]]
    /\ field "details" (payload r) = Some (JStr (message e)).
Proof.
  intros Hrun H500.
  destruct (handle_accounted _ _ _ _ _ _ Hrun) as (_ & H & _). auto.
Qed.

(** Every line of a non-empty parsed text is a dialogue line. *)
Lemma parseSrt_dialogue_only (s : jsstring) :
  parseSrt s = [] \/ forallb isDialogueLine (split NL (parseSrt s)) = true.
Proof.
  rewrite parseSrt_lines.
  destruct (filter isDialogueLine (split NL s)) as [|l ls] eqn:E.
  - left. reflexivity.
  - right. rewrite split_join.
    + rewrite <- E. apply forallb_filter_self.
    + rewrite <- E. apply forallb_filter, split_singleLine.
Qed.

(** X8.  Every successful [/upload-url] response is
    [{transcript, success: true}] with a transcript that is empty or made
    of dialogue lines only: it has no digits-only line, no timestamp-range
    line and no blank line. *)
Theorem uploadUrl_success_is_clean
    (env : Env) (body : jsval) (w w' : World) (r : Response) :
  handle UploadUrl env body w = (Ok r, w') ->
  status r = 200%Z ->
  exists transcript,
    payload r = json [("transcript", JStr transcript); ("success", JBool true)]
    /\ (transcript = []
        \/ forallb isDialogueLine (split NL transcript) = true).
Proof.
  intros Hrun H200.
  destruct (handle_accounted _ _ _ _ _ _ Hrun) as (_ & _ & H).
  destruct (H H200) as (subtitleText & Hbody).
  exists (parseSrt subtitleText). split; [exact Hbody|].
  apply parseSrt_dialogue_only.
Qed.

Lemma trimStart_head (s : jsstring) :
  match trimStart s with
  | [] => True
  | c :: _ => isWhiteSpace c = false
  end.
Proof.
  induction s as [|c s IH]; simpl; [exact I|].
  destruct (isWhiteSpace c) eqn:E; [exact IH|exact E].
Qed.

Lemma trimStart_suffix (s : jsstring) : exists z, s = z ++ trimStart s.
Proof.
  induction s as [|c s [z IH]]; simpl.
  - exists []. reflexivity.
  - destruct (isWhiteSpace c).
    + exists (c :: z). simpl. now rewrite <- IH.
    + exists []. reflexivity.
Qed.

(** What [trim] returns has no whitespace at either end. *)
Lemma trim_trimmed (s : jsstring) : trimmed (trim s) = true.
Proof.
  unfold trimmed, trim, trimEnd.
  set (u := trimStart s). set (v := trimStart (rev u)).
  rewrite rev_involutive. apply andb_true_iff. split.
  - destruct (trimStart_suffix (rev u)) as [z Hz]. fold v in Hz.
    assert (Hu : u = rev v ++ rev z).
    { rewrite <- (rev_involutive u), Hz, rev_app_distr. reflexivity. }
    destruct (rev v) as [|c x] eqn:E; [reflexivity|].
    pose proof (trimStart_head s) as Hh. fold u in Hh. rewrite Hu in Hh.
    simpl in Hh. now rewrite Hh.
  - pose proof (trimStart_head (rev u)) as Hh. fold v in Hh.
    destruct v; [reflexivity|]. now rewrite Hh.
Qed.

(** X9.  The answer of every successful [/ask] response is a string without
    whitespace at its beginning or at its end. *)
Theorem ask_answer_is_trimmed
    (env : Env) (body : jsval) (w w' : World) (r : Response) :
  handle Ask env body w = (Ok r, w') ->
  status r = 200%Z ->
  exists answer,
    payload r = json [("answer", JStr answer)] /\ trimmed answer = true.
Proof.
  intros Hrun H200.
  destruct (handle_accounted _ _ _ _ _ _ Hrun) as (_ & _ & H).
  destruct (H H200) as (generated & Hbody).
  exists (trim generated). split; [exact Hbody|apply trim_trimmed].
Qed.

End ResponseFacts.

(** ** The subtitle pipeline, path by path *)

(** Like [wp_walk], and a test on a lookup splits on the lookup. *)
Ltac wp_inner :=
  lazymatch goal with
  | H : ?x = _ |- wp (if match ?x with _ => _ end then _ else _) _ _ =>
      rewrite H
  | |- wp (if match ?x with _ => _ end then _ else _) _ _ => destruct x eqn:?
  end.

Ltac wp_go := repeat (first [wp_known | wp_inner | wp_step]; wp_simpl).

(** A handler that is past its validation, with the scratch directory
    there or made: [Hexec] is about the directory the tool starts in. *)
Ltac enter handler w Hmk Hexec :=
  unfold handler;
  let before := fresh "before" in
  let Hdir := fresh "Hdir" in
  destruct (downloads w) as [before|] eqn:Hdir; cbv beta iota in Hexec;
  [|specialize (Hmk eq_refl)].

Section SubtitlePaths.

(** From a postcondition to the run it describes. *)
Lemma wp_result {A} (m : M A) w (o : Outcome A) (P : World -> Prop) :
  wp m w (fun o' w' => o' = o /\ P w') ->
  exists w', m w = (o, w') /\ P w'.
Proof.
  unfold wp. destruct (m w) as [o' w']. simpl. intros [-> H]. eauto.
Qed.

(** X10.  When the download tool fails, the request fails with the tool's
    error as [details]; the scratch directory is left as the tool left it,
    without being listed, and the store is not written. *)
Theorem uploadUrl_tool_failure
    (env : Env) (body videoURL : jsval) (w : World) (url : jsstring)
    (result : ExecResult) (after : option dir) (e : JsError) :
  getProp body "videoURL" = Some videoURL ->
  truthy videoURL = true ->
  toStr videoURL = Some url ->
  (downloads w = None -> mkdirError env = None) ->
  exec env (ytDlpCommand url (pathJoin (subtitleName (now env))))
    (Some match downloads w with Some d => d | None => [] end)
  = (result, after) ->
  execError result = Some e ->
  exists w',
    handle UploadUrl env body w
    = (Ok {| status := 500;
             payload := json [("error", jstr "Failed to process video");
                              ("details", JStr (message e))] |}, w')
    /\ downloads w' = after
    /\ globalTranscript w' = globalTranscript w.
Proof.
  intros Hbody Hurl Hstr Hmk Hexec Hfail.
  pose proof (getProp_truthy _ _ _ Hbody Hurl) as Htruthy.
  apply wp_result. cbn [handle].
  enter uploadUrl w Hmk Hexec; wp_go; repeat split; reflexivity.
Qed.

(** X11.  When the tool exits with status 0 and the scratch directory holds
    no file whose name ends in [.srt] or [.vtt], the request fails with
    [details: "No subtitle file found"]; nothing is read or deleted and the
    store is not written. *)
Theorem uploadUrl_no_subtitle
    (env : Env) (body videoURL : jsval) (w : World) (url : jsstring)
    (result : ExecResult) (entries : dir) :
  getProp body "videoURL" = Some videoURL ->
  truthy videoURL = true ->
  toStr videoURL = Some url ->
  (downloads w = None -> mkdirError env = None) ->
  exec env (ytDlpCommand url (pathJoin (subtitleName (now env))))
    (Some match downloads w with Some d => d | None => [] end)
  = (result, Some entries) ->
  execError result = None ->
  findSubtitle (map fst entries) = None ->
  exists w',
    handle UploadUrl env body w
    = (Ok {| status := 500;
             payload := json [("error", jstr "Failed to process video");
                              ("details", jstr "No subtitle file found")] |},
       w')
    /\ downloads w' = Some entries
    /\ globalTranscript w' = globalTranscript w.
Proof.
  intros Hbody Hurl Hstr Hmk Hexec Hok Hnone.
  pose proof (getProp_truthy _ _ _ Hbody Hurl) as Htruthy.
  apply wp_result. cbn [handle].
  enter uploadUrl w Hmk Hexec; wp_go; repeat split; reflexivity.
Qed.

(** The run in which the tool succeeds and the first subtitle file is
    read. *)
Lemma uploadUrl_success
    (env : Env) (body videoURL : jsval) (w : World) (url : jsstring)
    (result : ExecResult) (entries : dir) (subtitleFile : jsstring)
    (artifact : file) :
  getProp body "videoURL" = Some videoURL ->
  truthy videoURL = true ->
  toStr videoURL = Some url ->
  (downloads w = None -> mkdirError env = None) ->
  exec env (ytDlpCommand url (pathJoin (subtitleName (now env))))
    (Some match downloads w with Some d => d | None => [] end)
  = (result, Some entries) ->
  execError result = None ->
  findSubtitle (map fst entries) = Some subtitleFile ->
  findFile subtitleFile entries = Some artifact ->
  readError artifact = None ->
  exists w',
    uploadUrl env body w
    = (Ok {| status := 200;
             payload :=
               json [("transcript",
                      JStr (normalize subtitleFile
                              (utf8Decode env (bytes artifact))));
                     ("success", JBool true)] |}, w')
    /\ downloads w' = Some (cleaned (now env) entries)
    /\ globalTranscript w' = globalTranscript w.
Proof.
  intros Hbody Hurl Hstr Hmk Hexec Hok Hfind Hfile Hread.
  pose proof (getProp_truthy _ _ _ Hbody Hurl) as Htruthy.
  apply wp_result.
  enter uploadUrl w Hmk Hexec; wp_go;
    unfold cleaned, normalize, convertSubtitle;
    repeat match goal with
           | H : _ = _ |- _ => rewrite H
           end;
    repeat split; reflexivity.
Qed.

Lemma findFile_removeFile_other (name other : jsstring) (d : dir) :
  str_eqb other name = false ->
  findFile name (removeFile other d) = findFile name d.
Proof.
  intros Hne. induction d as [|[n f] d IH]; simpl; [reflexivity|].
  destruct (str_eqb n other) eqn:E1.
  - apply str_eqb_eq in E1. subst n. now rewrite Hne.
  - simpl. now rewrite IH.
Qed.

Lemma findFile_cleaned_other (timestamp : Z) (name : jsstring) (d : dir) :
  str_eqb (subtitleName timestamp) name = false ->
  findFile name (cleaned timestamp d) = findFile name d.
Proof.
  intros Hne. unfold cleaned.
  destruct (findFile (subtitleName timestamp) d) as [target|];
    [|reflexivity].
  destruct (unlinkError target); [reflexivity|].
  now apply findFile_removeFile_other.
Qed.

(** A name that ends in [.vtt] is not the name the cleanup deletes. *)
Lemma vtt_is_not_the_cleanup_target (timestamp : Z) (name : jsstring) :
  endsWith name (lit ".vtt") = true ->
  str_eqb (subtitleName timestamp) name = false.
Proof.
  intros Hvtt. destruct (str_eqb (subtitleName timestamp) name) eqn:E;
    [|reflexivity].
  apply str_eqb_eq in E. subst name.
  unfold endsWith, subtitleName in Hvtt.
  rewrite !rev_app_distr in Hvtt. discriminate Hvtt.
Qed.

(** X12.  A subtitle file delivered as WebVTT is never cleaned up: after a
    successful [/upload-url] request whose located artifact has a name
    ending in [.vtt], the artifact is still in the scratch directory,
    unchanged, whatever the cleanup step did. *)
Theorem vtt_artifact_outlives_the_request
    (env : Env) (body videoURL : jsval) (w : World) (url : jsstring)
    (result : ExecResult) (entries : dir) (subtitleFile : jsstring)
    (artifact : file) :
  getProp body "videoURL" = Some videoURL ->
  truthy videoURL = true ->
  toStr videoURL = Some url ->
  (downloads w = None -> mkdirError env = None) ->
  exec env (ytDlpCommand url (pathJoin (subtitleName (now env))))
    (Some match downloads w with Some d => d | None => [] end)
  = (result, Some entries) ->
  execError result = None ->
  findSubtitle (map fst entries) = Some subtitleFile ->
  findFile subtitleFile entries = Some artifact ->
  readError artifact = None ->
  endsWith subtitleFile (lit ".vtt") = true ->
  exists r w' remaining,
    handle UploadUrl env body w = (Ok r, w')
    /\ status r = 200%Z
    /\ downloads w' = Some remaining
    /\ findFile subtitleFile remaining = Some artifact.
Proof.
  intros Hbody Hurl Hstr Hmk Hexec Hok Hfind Hfile Hread Hvtt.
  destruct (uploadUrl_success env body videoURL w url result entries
              subtitleFile artifact Hbody Hurl Hstr Hmk Hexec Hok Hfind
              Hfile Hread) as (w' & Hrun & Hdir & _).
  eexists _, w', (cleaned (now env) entries).
  split; [exact Hrun|]. split; [reflexivity|]. split; [exact Hdir|].
  rewrite findFile_cleaned_other; [exact Hfile|].
  now apply vtt_is_not_the_cleanup_target.
Qed.

End SubtitlePaths.

(** ** The audio pipeline, path by path *)

Section AudioPaths.

Lemma findFile_putFile_other (name other : jsstring) (c : list N) (d : dir) :
  str_eqb other name = false ->
  findFile name (putFile other c d) = findFile name d.
Proof.
  intros Hne. induction d as [|[n f] d IH]; simpl.
  - now rewrite Hne.
  - destruct (str_eqb n other) eqn:E1; simpl.
    + apply str_eqb_eq in E1. subst n. now rewrite Hne.
    + now rewrite IH.
Qed.

(** What was written is what is found. *)
Lemma findFile_putFile_same (name : jsstring) (c : list N) (d : dir) :
  exists f, findFile name (putFile name c d) = Some f /\ bytes f = c.
Proof.
  induction d as [|[n f] d IH]; simpl.
  - rewrite str_eqb_refl. eauto.
  - destruct (str_eqb n name) eqn:E; simpl; rewrite E; eauto.
Qed.

(** X13.  In [/upload-video] a cleanup failure does fail the request: when
    the audio file cannot be deleted after a successful transcription, the
    answer is 500 with the deletion error as [details], the recognized text
    is not stored, and nothing has been deleted. *)
Theorem uploadVideo_cleanup_failure_propagates
    (env : Env) (body : jsval) (video : jsstring) (w : World)
    (result : ExecResult) (entries : dir) (audio : file)
    (data : jsval) (transcript : jsstring) (e : JsError) :
  getProp body "video" = Some (JStr video) ->
  truthyStr video = true ->
  (downloads w = None -> mkdirError env = None) ->
  writeError env (videoName (now env)) = None ->
  exec env (ffmpegCommand (pathJoin (videoName (now env)))
              (pathJoin (audioName (now env))))
    (Some (putFile (videoName (now env)) (utf8Encode env video)
             match downloads w with Some d => d | None => [] end))
  = (result, Some entries) ->
  execError result = None ->
  findFile (audioName (now env)) entries = Some audio ->
  readError audio = None ->
  transcribePost env (base64Encode env (bytes audio)) = Ok data ->
  getProp data "transcript" = Some (JStr transcript) ->
  unlinkError audio = Some e ->
  exists w',
    handle UploadVideo env body w
    = (Ok {| status := 500;
             payload := json [("error", jstr "Failed to process video");
                              ("details", JStr (message e))] |}, w')
    /\ globalTranscript w' = globalTranscript w
    /\ downloads w' = Some entries.
Proof.
  intros Hbody Hvideo Hmk Hwrite Hexec Hok Haudio Hread Hpost Htext Hstuck.
  assert (Htruthy : truthy body = true)
    by (apply (getProp_truthy _ _ _ Hbody); exact Hvideo).
  assert (Hv : truthy (JStr video) = true) by exact Hvideo.
  apply wp_result. cbn [handle].
  enter uploadVideo w Hmk Hexec; wp_go; repeat split; reflexivity.
Qed.

(** The run in which every step succeeds. *)
Lemma uploadVideo_success
    (env : Env) (body : jsval) (video : jsstring) (w : World)
    (result : ExecResult) (entries : dir) (audio uploaded : file)
    (data : jsval) (transcript : jsstring) :
  getProp body "video" = Some (JStr video) ->
  truthyStr video = true ->
  (downloads w = None -> mkdirError env = None) ->
  writeError env (videoName (now env)) = None ->
  exec env (ffmpegCommand (pathJoin (videoName (now env)))
              (pathJoin (audioName (now env))))
    (Some (putFile (videoName (now env)) (utf8Encode env video)
             match downloads w with Some d => d | None => [] end))
  = (result, Some entries) ->
  execError result = None ->
  findFile (audioName (now env)) entries = Some audio ->
  readError audio = None ->
  transcribePost env (base64Encode env (bytes audio)) = Ok data ->
  getProp data "transcript" = Some (JStr transcript) ->
  unlinkError audio = None ->
  writeError env (transcriptName (now env)) = None ->
  findFile (videoName (now env)) entries = Some uploaded ->
  unlinkError uploaded = None ->
  exists w',
    uploadVideo env body w
    = (Ok {| status := 200;
             payload := json [("success", JBool true);
                              ("timestamp", JNum (NumInt (now env)))] |}, w')
    /\ globalTranscript w' = JStr transcript
    /\ downloads w'
       = Some (removeFile (videoName (now env))
                 (putFile (transcriptName (now env))
                    (utf8Encode env transcript)
                    (removeFile (audioName (now env)) entries))).
Proof.
  intros Hbody Hvideo Hmk Hwrite Hexec Hok Haudio Hread Hpost Htext
         Hdel Hwrite2 Hup Hdel2.
  assert (Htruthy : truthy body = true)
    by (apply (getProp_truthy _ _ _ Hbody); exact Hvideo).
  assert (Hv : truthy (JStr video) = true) by exact Hvideo.
  assert (Hup2 : findFile (videoName (now env))
                   (putFile (transcriptName (now env))
                      (utf8Encode env transcript)
                      (removeFile (audioName (now env)) entries))
                 = Some uploaded).
  { rewrite findFile_putFile_other by reflexivity.
    rewrite findFile_removeFile_other by reflexivity. exact Hup. }
  apply wp_result.
  enter uploadVideo w Hmk Hexec; wp_go;
    match goal with
    | E : getProp (JStr _) _ = Some _ |- _ => injection E as <-
    | E : getProp (JStr _) _ = None |- _ => discriminate E
    end;
    repeat split; reflexivity.
Qed.

Lemma str_eqb_sym (a b : jsstring) : str_eqb a b = str_eqb b a.
Proof.
  destruct (str_eqb a b) eqn:E1, (str_eqb b a) eqn:E2; try reflexivity.
  - apply str_eqb_eq in E1. subst b. now rewrite str_eqb_refl in E2.
  - apply str_eqb_eq in E2. subst b. now rewrite str_eqb_refl in E1.
Qed.

Lemma findFile_removeFile_gone (name : jsstring) (d : dir) :
  distinctNames d = true -> findFile name (removeFile name d) = None.
Proof.
  induction d as [|[n f] d IH]; simpl; intros Hd; [reflexivity|].
  destruct (findFile n d) eqn:En; [discriminate Hd|].
  destruct (str_eqb n name) eqn:E.
  - apply str_eqb_eq in E. now subst n.
  - simpl. rewrite E. now apply IH.
Qed.

Lemma distinctNames_removeFile (name : jsstring) (d : dir) :
  distinctNames d = true -> distinctNames (removeFile name d) = true.
Proof.
  induction d as [|[n f] d IH]; simpl; intros Hd; [reflexivity|].
  destruct (findFile n d) eqn:En; [discriminate Hd|].
  destruct (str_eqb n name) eqn:E; [exact Hd|].
  simpl. rewrite findFile_removeFile_other, En by (now rewrite str_eqb_sym).
  now apply IH.
Qed.

Lemma distinctNames_putFile (name : jsstring) (c : list N) (d : dir) :
  distinctNames d = true -> distinctNames (putFile name c d) = true.
Proof.
  induction d as [|[n f] d IH]; simpl; intros Hd; [reflexivity|].
  destruct (findFile n d) eqn:En; [discriminate Hd|].
  destruct (str_eqb n name) eqn:E; simpl.
  - now rewrite En.
  - rewrite findFile_putFile_other, En by (now rewrite str_eqb_sym).
    now apply IH.
Qed.

(** X14.  A successful [/upload-video] request deletes the audio file and
    the uploaded video file but not what it wrote in between: the scratch
    directory it leaves is the one FFmpeg left, without [audio_<timestamp>.wav]
    and [video_<timestamp>.mp4] (in a directory without repeated names,
    neither is found any more) and with [transcript_<timestamp>.txt], whose
    content is the recognized text, the text now in the store; every other
    file is as it was. *)
Theorem uploadVideo_success_leaves_the_transcript_file
    (env : Env) (body : jsval) (video : jsstring) (w : World)
    (result : ExecResult) (entries : dir) (audio uploaded : file)
    (data : jsval) (transcript : jsstring) :
  getProp body "video" = Some (JStr video) ->
  truthyStr video = true ->
  (downloads w = None -> mkdirError env = None) ->
  writeError env (videoName (now env)) = None ->
  exec env (ffmpegCommand (pathJoin (videoName (now env)))
              (pathJoin (audioName (now env))))
    (Some (putFile (videoName (now env)) (utf8Encode env video)
             match downloads w with Some d => d | None => [] end))
  = (result, Some entries) ->
  execError result = None ->
  findFile (audioName (now env)) entries = Some audio ->
  readError audio = None ->
  transcribePost env (base64Encode env (bytes audio)) = Ok data ->
  getProp data "transcript" = Some (JStr transcript) ->
  unlinkError audio = None ->
  writeError env (transcriptName (now env)) = None ->
  findFile (videoName (now env)) entries = Some uploaded ->
  unlinkError uploaded = None ->
  exists w' remaining kept,
    handle UploadVideo env body w
    = (Ok {| status := 200;
             payload := json [("success", JBool true);
                              ("timestamp", JNum (NumInt (now env)))] |}, w')
    /\ globalTranscript w' = JStr transcript
    /\ downloads w' = Some remaining
    /\ remaining
       = removeFile (videoName (now env))
           (putFile (transcriptName (now env)) (utf8Encode env transcript)
              (removeFile (audioName (now env)) entries))
    /\ (distinctNames entries = true ->
        findFile (audioName (now env)) remaining = None
        /\ findFile (videoName (now env)) remaining = None)
    /\ findFile (transcriptName (now env)) remaining = Some kept
    /\ bytes kept = utf8Encode env transcript
    /\ forall name,
         str_eqb (audioName (now env)) name = false ->
         str_eqb (videoName (now env)) name = false ->
         str_eqb (transcriptName (now env)) name = false ->
         findFile name remaining = findFile name entries.
Proof.
  intros Hbody Hvideo Hmk Hwrite Hexec Hok Haudio Hread Hpost Htext
         Hdel Hwrite2 Hup Hdel2.
  destruct (uploadVideo_success env body video w result entries audio
              uploaded data transcript Hbody Hvideo Hmk Hwrite Hexec Hok
              Haudio Hread Hpost Htext Hdel Hwrite2 Hup Hdel2)
    as (w' & Hrun & Hstore & Hleft).
  destruct (findFile_putFile_same (transcriptName (now env))
              (utf8Encode env transcript)
              (removeFile (audioName (now env)) entries))
    as (kept & Hkept & Hbytes).
  eexists w', _, kept.
  split; [exact Hrun|]. split; [exact Hstore|]. split; [exact Hleft|].
  split; [reflexivity|]. split; [|split; [|split; [exact Hbytes|]]].
  - intros Hdistinct. split.
    + rewrite findFile_removeFile_other by reflexivity.
      rewrite findFile_putFile_other by reflexivity.
      now apply findFile_removeFile_gone.
    + apply findFile_removeFile_gone.
      now apply distinctNames_putFile, distinctNames_removeFile.
  - rewrite findFile_removeFile_other by reflexivity. exact Hkept.
  - intros name Ha Hv Ht.
    rewrite findFile_removeFile_other by exact Hv.
    rewrite findFile_putFile_other by exact Ht.
    now apply findFile_removeFile_other.
Qed.

(** X15.  The two handlers composed: when the transcription boundary is
    answered by the [/transcribe] handler of this server, a successful
    [/upload-video] stores the fixed text of that handler, whatever the
    video and whatever FFmpeg extracted from it. *)
Theorem uploadVideo_over_own_transcribe_stores_the_placeholder
    (env : Env) (body : jsval) (video : jsstring) (w : World)
    (result : ExecResult) (entries : dir) (audio uploaded : file)
    (server : Env) (s s' : World) (served : Response) :
  getProp body "video" = Some (JStr video) ->
  truthyStr video = true ->
  (downloads w = None -> mkdirError env = None) ->
  writeError env (videoName (now env)) = None ->
  exec env (ffmpegCommand (pathJoin (videoName (now env)))
              (pathJoin (audioName (now env))))
    (Some (putFile (videoName (now env)) (utf8Encode env video)
             match downloads w with Some d => d | None => [] end))
  = (result, Some entries) ->
  execError result = None ->
  findFile (audioName (now env)) entries = Some audio ->
  readError audio = None ->
  handle Transcribe server
    (JObj [(lit "audio", JStr (base64Encode env (bytes audio)))]) s
  = (Ok served, s') ->
  status served = 200%Z ->
  transcribePost env (base64Encode env (bytes audio)) = Ok (payload served) ->
  unlinkError audio = None ->
  writeError env (transcriptName (now env)) = None ->
  findFile (videoName (now env)) entries = Some uploaded ->
  unlinkError uploaded = None ->
  exists r w',
    handle UploadVideo env body w = (Ok r, w')
    /\ status r = 200%Z
    /\ globalTranscript w' = jstr "Transcription completed successfully".
Proof.
  intros Hbody Hvideo Hmk Hwrite Hexec Hok Haudio Hread Hserved H200 Hpost
         Hdel Hwrite2 Hup Hdel2.
  destruct (handle_accounted _ _ _ _ _ _ Hserved) as (_ & _ & Hsuccess).
  specialize (Hsuccess H200). cbn [successBody] in Hsuccess.
  assert (Htext : getProp (payload served) "transcript"
                  = Some (jstr "Transcription completed successfully"))
    by now rewrite Hsuccess.
  destruct (uploadVideo_success env body video w result entries audio
              uploaded (payload served)
              (lit "Transcription completed successfully")
              Hbody Hvideo Hmk Hwrite Hexec Hok
              Haudio Hread Hpost Htext Hdel Hwrite2 Hup Hdel2)
    as (w' & Hrun & Hstore & _).
  eexists _, w'. split; [exact Hrun|]. split; [reflexivity|exact Hstore].
Qed.

End AudioPaths.

(** ** Asking, path by path *)

Section AskPaths.

(** X16.  What [/ask] answers is decided by the reply of the language
    model alone.  A first candidate with a string [generated_text] gives
    200 and that text, trimmed, and leaves the process state as it was; any
    other reply gives 500; a rejected call gives 500 with the rejection's
    message as [details], after the error has been logged three times.  The
    store is never written. *)
Theorem ask_outcome_follows_the_model
    (env : Env) (body question timestamp : jsval) (w : World)
    (t ts q : jsstring) :
  getProp body "question" = Some question ->
  truthy question = true ->
  toStr question = Some q ->
  getProp body "timestamp" = Some timestamp ->
  toStr (if truthy timestamp then timestamp
         else JNum (NumInt (now env / 1000))) = Some ts ->
  globalTranscript w = JStr t ->
  rateLimited env = false ->
  exists r w',
    handle Ask env body w = (Ok r, w')
    /\ globalTranscript w' = globalTranscript w
    /\ match hfPost env (lit "/" ++ MODEL_ID) (buildPrompt t ts q) with
       | Ok data =>
           match firstGeneratedText data with
           | Some generated =>
               r = {| status := 200;
                      payload := json [("answer", JStr (trim generated))] |}
               /\ w' = w
           | None => status r = 500%Z
           end
       | Throw e =>
           r = {| status := 500;
                  payload := json [("error", jstr "Failed to get answer");
                                   ("details", JStr (message e))] |}
           /\ console w'
              = console w
                ++ [ConsoleError [text "Hugging Face API error:"; Exn e];
                    ConsoleError [text "Hugging Face API error:"; Exn e];
                    ConsoleError [text "Error in /ask endpoint:"; Exn e]]
       end.
Proof.
  intros Hq Hqt Hqs Hts Htss Hstore Hpass.
  pose proof (getProp_truthy _ _ _ Hq Hqt) as Htruthy.
  match goal with
  | |- exists r w', ?m w = (Ok r, w') /\ @?P r w' =>
      cut (wp m w (fun o w' => exists r, o = Ok r /\ P r w'))
  end.
  { unfold wp. destruct (handle Ask env body w) as [o w']. simpl.
    intros (r & -> & H). eauto. }
  cbn [handle]. unfold apiLimiter. rewrite Hpass.
  unfold ask, firstGeneratedText.
  repeat (first [ rewrite Hstore | wp_known | wp_step ];
          wp_simpl; cbn [toStr]).
  all: repeat match goal with
              | E : callTrim ?a = _ |- _ =>
                  destruct a; cbn [callTrim] in E;
                  first [discriminate E | injection E as <- | idtac]
              end.
  all: eexists; split; [reflexivity|]; cbn [globalTranscript console status];
    rewrite <- ?app_assoc; repeat split; try reflexivity.
Qed.

Lemma bind_cong {A B} (m : M A) (k1 k2 : A -> M B) (w : World) :
  (forall a w', k1 a w' = k2 a w') -> bind m k1 w = bind m k2 w.
Proof.
  intros H. unfold bind. destruct (m w) as [[a|e] w']; [apply H|reflexivity].
Qed.

Lemma bind_found {A B} (a : A) (e : JsError) (k : A -> M B) (w : World) :
  bind (orThrow (Some a) e) k w = k a w.
Proof. reflexivity. Qed.

Lemma tryCatch_cong {A} (m1 m2 : M A) (h : JsError -> M A) (w : World) :
  m1 w = m2 w -> tryCatch m1 h w = tryCatch m2 h w.
Proof. unfold tryCatch. now intros ->. Qed.

Lemma synthesizePrompt_with_timestamp (env : Env) (clock : Z)
    (question timestamp : jsval) :
  truthy timestamp = true ->
  synthesizePrompt (atClock clock env) question timestamp
  = synthesizePrompt env question timestamp.
Proof. intros H. unfold synthesizePrompt. now rewrite H. Qed.

(** X17.  [/ask] reads the clock only to make up for a missing timestamp:
    with a truthy [timestamp] in the body, the same request at any other
    time has the same response and the same effect. *)
Theorem ask_with_timestamp_ignores_the_clock
    (env : Env) (clock : Z) (body timestamp : jsval) (w : World) :
  getProp body "timestamp" = Some timestamp ->
  truthy timestamp = true ->
  handle Ask (atClock clock env) body w = handle Ask env body w.
Proof.
  intros Hts Htruthy.
  cbn [handle]. unfold apiLimiter. cbn [atClock rateLimited].
  destruct (rateLimited env); [reflexivity|].
  unfold ask. apply tryCatch_cong.
  destruct (truthy body); [|reflexivity]. cbn [negb].
  apply bind_cong. intros question w1.
  rewrite Hts, !bind_found.
  destruct (truthy question); [|reflexivity]. cbn [negb].
  rewrite (synthesizePrompt_with_timestamp env clock question timestamp
             Htruthy).
  reflexivity.
Qed.

End AskPaths.

(** ** The speech widget against the server *)

Section Widget.

(** X18.  The speech widget and the server do not agree on the request:
    what [recognition.onresult] posts to [/transcribe] carries the text
    under [transcript], the handler looks for [audio], and so every such
    post, whatever was recognized, is answered with status 400 and changes
    nothing. *)
Theorem speech_widget_posts_are_rejected
    (env : Env) (transcript : jsstring) (w : World) :
  url (onresult transcript) = lit "/transcribe"
  /\ method (onresult transcript) = lit "POST"
  /\ handle Transcribe env (sent (onresult transcript)) w
     = (Ok {| status := 400;
              payload := json [("error", jstr "Audio data is required")] |},
        w).
Proof. repeat split. Qed.

End Widget.

(** ** Further worked requests *)

Section MoreRuns.

Import Scenario.

(** X4 on one cue with CRLF line endings: only the blank line goes. *)
Lemma parseSrt_on_CRLF_text_witness :
  let ls := [lit "1"; lit "00:00:01,000 --> 00:00:02,000"; lit "hello"; []] in
  forallb singleLine ls = true
  /\ parseSrt (join [NL] (map (fun l => l ++ [CR]) ls))
     = join [NL] [lit "1" ++ [CR];
                  lit "00:00:01,000 --> 00:00:02,000" ++ [CR];
                  lit "hello" ++ [CR]].
Proof.
  intros ls. split; [reflexivity|].
  exact (parseSrt_on_CRLF_text ls eq_refl).
Defined.

(** X5 on a WebVTT file with one cue. *)
Lemma normalize_keeps_vtt_timing_lines_witness :
  let ls := [lit "WEBVTT"; []; lit "00:00:01.000 --> 00:00:02.000";
             lit "hello"] in
  let l := lit "00:00:01.000 --> 00:00:02.000" in
  (forallb singleLine ls = true /\ In l ls /\ isVttTimingLine l = true)
  /\ In l (split NL (normalize vttName (join [NL] ls))).
Proof.
  intros ls l.
  assert (Hin : In l ls) by (right; right; left; reflexivity).
  split; [repeat split; [exact Hin]|].
  exact (normalize_keeps_vtt_timing_lines vttName ls l eq_refl Hin eq_refl).
Defined.

(** X6 at a concrete request: [/upload-url] without a URL, after an
    ingestion that stored a transcript. *)
Lemma validation_failure_touches_nothing_witness :
  let w := videoWorld (lit "hi there") in
  let r := {| status := 400;
              payload := json [("error", jstr "Video URL is required")] |} in
  let w' := snd (handle UploadUrl urlEnv (JObj []) w) in
  (handle UploadUrl urlEnv (JObj []) w = (Ok r, w') /\ status r = 400%Z)
  /\ globalTranscript w' = jstr "hi there"
  /\ downloads w' = downloads w.
Proof.
  intros w r w'. split; [split; reflexivity|].
  exact (validation_failure_touches_nothing UploadUrl urlEnv (JObj []) w w' r
           eq_refl eq_refl).
Defined.

(** X7 at a concrete request: [/transcribe] without a body. *)
Lemma caught_failure_is_logged_witness :
  let r := {| status := 500;
              payload := json [("error",
                                jstr "Failed to process transcription");
                               ("details", JStr (message cannotRead))] |} in
  let w' := snd (handle Transcribe urlEnv JUndefined initial) in
  (handle Transcribe urlEnv JUndefined initial = (Ok r, w')
   /\ status r = 500%Z)
  /\ exists logged label e,
       console w' = logged ++ [ConsoleError [Text label; Exn e]]
       /\ field "details" (payload r) = Some (JStr (message e)).
Proof.
  intros r w'. split; [split; reflexivity|].
  exact (caught_failure_is_logged Transcribe urlEnv JUndefined initial w' r
           eq_refl eq_refl).
Defined.

(** X8 at a concrete request: yt-dlp leaves an SRT file with one cue. *)
Lemma uploadUrl_success_is_clean_witness :
  let r := {| status := 200;
              payload := json [("transcript", jstr "hello");
                               ("success", JBool true)] |} in
  let w' := snd (handle UploadUrl urlEnv urlBody initial) in
  (handle UploadUrl urlEnv urlBody initial = (Ok r, w') /\ status r = 200%Z)
  /\ exists transcript,
       payload r = json [("transcript", JStr transcript);
                         ("success", JBool true)]
       /\ (transcript = []
           \/ forallb isDialogueLine (split NL transcript) = true).
Proof.
  intros r w'. split; [split; reflexivity|].
  exact (uploadUrl_success_is_clean urlEnv urlBody initial w' r
           eq_refl eq_refl).
Defined.

(** X9 at a concrete request: the model pads its answer with blanks. *)
Lemma ask_answer_is_trimmed_witness :
  let r := {| status := 200; payload := json [("answer", jstr "ok")] |} in
  (handle Ask (askEnv (lit "  ok ")) askBody initial = (Ok r, initial)
   /\ status r = 200%Z)
  /\ exists answer,
       payload r = json [("answer", JStr answer)] /\ trimmed answer = true.
Proof.
  intros r. split; [split; reflexivity|].
  exact (ask_answer_is_trimmed (askEnv (lit "  ok ")) askBody initial initial
           r eq_refl eq_refl).
Defined.

(** X10 at a concrete request: yt-dlp is not installed. *)
Lemma uploadUrl_tool_failure_witness :
  (getProp urlBody "videoURL" = Some (jstr "http://v/1")
   /\ truthy (jstr "http://v/1") = true
   /\ toStr (jstr "http://v/1") = Some (lit "http://v/1")
   /\ mkdirError failedToolEnv = None
   /\ exec failedToolEnv
        (ytDlpCommand (lit "http://v/1") (pathJoin (subtitleName 1000)))
        (Some []) = (failed notFound, Some [])
   /\ execError (failed notFound) = Some notFound)
  /\ exists w',
       handle UploadUrl failedToolEnv urlBody initial
       = (Ok {| status := 500;
                payload := json [("error", jstr "Failed to process video");
                                 ("details", jstr "Command failed: yt-dlp")] |},
          w')
       /\ downloads w' = Some []
       /\ globalTranscript w' = JStr [].
Proof.
  split; [repeat split|].
  exact (uploadUrl_tool_failure failedToolEnv urlBody (jstr "http://v/1")
           initial (lit "http://v/1") (failed notFound) (Some []) notFound
           eq_refl eq_refl eq_refl (fun _ => eq_refl) eq_refl eq_refl).
Defined.

(** X11 at a concrete request: yt-dlp leaves a video and no subtitles. *)
Lemma uploadUrl_no_subtitle_witness :
  let entries := [(lit "video.mp4", plainFile [])] in
  (getProp urlBody "videoURL" = Some (jstr "http://v/1")
   /\ truthy (jstr "http://v/1") = true
   /\ toStr (jstr "http://v/1") = Some (lit "http://v/1")
   /\ mkdirError noSubtitleEnv = None
   /\ exec noSubtitleEnv
        (ytDlpCommand (lit "http://v/1") (pathJoin (subtitleName 1000)))
        (Some []) = (quiet, Some entries)
   /\ execError quiet = None
   /\ findSubtitle (map fst entries) = None)
  /\ exists w',
       handle UploadUrl noSubtitleEnv urlBody initial
       = (Ok {| status := 500;
                payload := json [("error", jstr "Failed to process video");
                                 ("details", jstr "No subtitle file found")] |},
          w')
       /\ downloads w' = Some entries
       /\ globalTranscript w' = JStr [].
Proof.
  intros entries. split; [repeat split|].
  exact (uploadUrl_no_subtitle noSubtitleEnv urlBody (jstr "http://v/1")
           initial (lit "http://v/1") quiet entries
           eq_refl eq_refl eq_refl (fun _ => eq_refl) eq_refl eq_refl
           eq_refl).
Defined.

(** X12 at a concrete request: yt-dlp leaves [subtitle_1000.srt.en.vtt]. *)
Lemma vtt_artifact_outlives_the_request_witness :
  let artifact := plainFile oneVttCue in
  let entries := [(vttName, artifact)] in
  (getProp urlBody "videoURL" = Some (jstr "http://v/1")
   /\ truthy (jstr "http://v/1") = true
   /\ toStr (jstr "http://v/1") = Some (lit "http://v/1")
   /\ mkdirError (vttEnv artifact) = None
   /\ exec (vttEnv artifact)
        (ytDlpCommand (lit "http://v/1") (pathJoin (subtitleName 1000)))
        (Some []) = (quiet, Some entries)
   /\ execError quiet = None
   /\ findSubtitle (map fst entries) = Some vttName
   /\ findFile vttName entries = Some artifact
   /\ readError artifact = None
   /\ endsWith vttName (lit ".vtt") = true)
  /\ exists r w' remaining,
       handle UploadUrl (vttEnv artifact) urlBody initial = (Ok r, w')
       /\ status r = 200%Z
       /\ downloads w' = Some remaining
       /\ findFile vttName remaining = Some artifact.
Proof.
  intros artifact entries. split; [repeat split|].
  exact (vtt_artifact_outlives_the_request (vttEnv artifact) urlBody
           (jstr "http://v/1") initial (lit "http://v/1") quiet entries
           vttName artifact
           eq_refl eq_refl eq_refl (fun _ => eq_refl) eq_refl eq_refl
           eq_refl eq_refl eq_refl eq_refl).
Defined.

(** X13 at a concrete request: [audio_1000.wav] cannot be deleted. *)
Lemma uploadVideo_cleanup_failure_propagates_witness :
  let env := stuckAudioEnv (lit "hi there") in
  let entries := [(lit "video_1000.mp4", plainFile (lit "AAAA"));
                  (lit "audio_1000.wav", stuckAudio)] in
  (getProp videoBody "video" = Some (jstr "AAAA")
   /\ mkdirError env = None
   /\ writeError env (videoName 1000) = None
   /\ exec env (ffmpegCommand (pathJoin (videoName 1000))
                  (pathJoin (audioName 1000)))
        (Some (putFile (videoName 1000) (lit "AAAA") []))
      = (quiet, Some entries)
   /\ findFile (audioName 1000) entries = Some stuckAudio
   /\ readError stuckAudio = None
   /\ transcribePost env (base64 (lit "RIFF"))
      = Ok (JObj [(lit "transcript", jstr "hi there")])
   /\ unlinkError stuckAudio = Some ebusy)
  /\ exists w',
       handle UploadVideo env videoBody initial
       = (Ok {| status := 500;
                payload := json [("error", jstr "Failed to process video");
                                 ("details", JStr (message ebusy))] |}, w')
       /\ globalTranscript w' = JStr []
       /\ downloads w' = Some entries.
Proof.
  intros env entries. split; [repeat split|].
  exact (uploadVideo_cleanup_failure_propagates env videoBody (lit "AAAA")
           initial quiet entries stuckAudio
           (JObj [(lit "transcript", jstr "hi there")]) (lit "hi there")
           ebusy
           eq_refl eq_refl (fun _ => eq_refl) eq_refl eq_refl eq_refl
           eq_refl eq_refl eq_refl eq_refl eq_refl).
Defined.

(** X14 at a concrete request: the speech service recognizes "hi there". *)
Lemma uploadVideo_success_leaves_the_transcript_file_witness :
  let env := videoEnv (lit "hi there") in
  let before := [(lit "notes.txt", plainFile (lit "keep"))] in
  let w := {| globalTranscript := JStr [];
              downloads := Some before;
              console := [] |} in
  let entries := [(lit "notes.txt", plainFile (lit "keep"));
                  (lit "video_1000.mp4", plainFile (lit "AAAA"));
                  (lit "audio_1000.wav", plainFile (lit "RIFF"))] in
  (getProp videoBody "video" = Some (jstr "AAAA")
   /\ writeError env (videoName 1000) = None
   /\ exec env (ffmpegCommand (pathJoin (videoName 1000))
                  (pathJoin (audioName 1000)))
        (Some (putFile (videoName 1000) (lit "AAAA") before))
      = (quiet, Some entries)
   /\ findFile (audioName 1000) entries = Some (plainFile (lit "RIFF"))
   /\ transcribePost env (base64 (lit "RIFF"))
      = Ok (JObj [(lit "transcript", jstr "hi there")])
   /\ writeError env (transcriptName 1000) = None
   /\ findFile (videoName 1000) entries = Some (plainFile (lit "AAAA"))
   /\ distinctNames entries = true)
  /\ exists w',
       handle UploadVideo env videoBody w
       = (Ok {| status := 200;
                payload := JObj [(lit "success", JBool true);
                                 (lit "timestamp", JNum (NumInt 1000))] |},
          w')
       /\ globalTranscript w' = jstr "hi there"
       /\ downloads w'
          = Some [(lit "notes.txt", plainFile (lit "keep"));
                  (lit "transcript_1000.txt", plainFile (lit "hi there"))]
       /\ findFile (lit "audio_1000.wav")
            [(lit "notes.txt", plainFile (lit "keep"));
             (lit "transcript_1000.txt", plainFile (lit "hi there"))]
          = None
       /\ findFile (lit "video_1000.mp4")
            [(lit "notes.txt", plainFile (lit "keep"));
             (lit "transcript_1000.txt", plainFile (lit "hi there"))]
          = None.
Proof.
  intros env before w entries. split; [repeat split|].
  destruct (uploadVideo_success_leaves_the_transcript_file env videoBody
              (lit "AAAA") w quiet entries (plainFile (lit "RIFF"))
              (plainFile (lit "AAAA"))
              (JObj [(lit "transcript", jstr "hi there")]) (lit "hi there")
              eq_refl eq_refl (fun _ => eq_refl) eq_refl eq_refl eq_refl
              eq_refl eq_refl eq_refl eq_refl eq_refl eq_refl eq_refl eq_refl)
    as (w' & remaining & kept & Hrun & Hstore & Hdir & Hremaining & Hgone
        & _).
  destruct (Hgone eq_refl) as [Haudio Hvideo].
  rewrite Hremaining in Hdir, Haudio, Hvideo.
  exists w'. repeat split; assumption.
Defined.

(** X15 at a concrete request: the speech service is the [/transcribe]
    handler, which is posted the base64 of the audio. *)
Lemma uploadVideo_over_own_transcribe_stores_the_placeholder_witness :
  let env := videoEnv (lit "Transcription completed successfully") in
  let entries := [(lit "video_1000.mp4", plainFile (lit "AAAA"));
                  (lit "audio_1000.wav", plainFile (lit "RIFF"))] in
  let posted := JObj [(lit "audio", JStr (base64 (lit "RIFF")))] in
  let served :=
    {| status := 200;
       payload := json [("transcript",
                         jstr "Transcription completed successfully")] |} in
  (getProp videoBody "video" = Some (jstr "AAAA")
   /\ exec env (ffmpegCommand (pathJoin (videoName 1000))
                  (pathJoin (audioName 1000)))
        (Some (putFile (videoName 1000) (lit "AAAA") []))
      = (quiet, Some entries)
   /\ findFile (audioName 1000) entries = Some (plainFile (lit "RIFF"))
   /\ handle Transcribe urlEnv posted initial
      = (Ok served, snd (handle Transcribe urlEnv posted initial))
   /\ status served = 200%Z
   /\ transcribePost env (base64 (lit "RIFF")) = Ok (payload served)
   /\ findFile (videoName 1000) entries = Some (plainFile (lit "AAAA")))
  /\ exists r w',
       handle UploadVideo env videoBody initial = (Ok r, w')
       /\ status r = 200%Z
       /\ globalTranscript w' = jstr "Transcription completed successfully".
Proof.
  intros env entries posted served. split; [repeat split|].
  exact (uploadVideo_over_own_transcribe_stores_the_placeholder env videoBody
           (lit "AAAA") initial quiet entries (plainFile (lit "RIFF"))
           (plainFile (lit "AAAA")) urlEnv initial
           (snd (handle Transcribe urlEnv posted initial)) served
           eq_refl eq_refl (fun _ => eq_refl) eq_refl eq_refl eq_refl
           eq_refl eq_refl eq_refl eq_refl eq_refl eq_refl eq_refl eq_refl
           eq_refl).
Defined.

(** X16 at a concrete request: the language model cannot be reached. *)
Lemma ask_outcome_follows_the_model_witness :
  (getProp askBody "question" = Some (jstr "What is said?")
   /\ truthy (jstr "What is said?") = true
   /\ toStr (jstr "What is said?") = Some (lit "What is said?")
   /\ getProp askBody "timestamp" = Some JUndefined
   /\ globalTranscript initial = JStr []
   /\ rateLimited askDownEnv = false
   /\ hfPost askDownEnv (lit "/" ++ MODEL_ID)
        (buildPrompt [] (lit "61") (lit "What is said?"))
      = Throw unavailable)
  /\ exists r w',
       handle Ask askDownEnv askBody initial = (Ok r, w')
       /\ globalTranscript w' = JStr []
       /\ r = {| status := 500;
                 payload :=
                   json [("error", jstr "Failed to get answer");
                         ("details",
                          jstr "Request failed with status code 503")] |}
       /\ console w'
          = [ConsoleError [text "Hugging Face API error:"; Exn unavailable];
             ConsoleError [text "Hugging Face API error:"; Exn unavailable];
             ConsoleError [text "Error in /ask endpoint:"; Exn unavailable]].
Proof.
  split; [repeat split|].
  exact (ask_outcome_follows_the_model askDownEnv askBody
           (jstr "What is said?") JUndefined initial [] (lit "61")
           (lit "What is said?")
           eq_refl eq_refl eq_refl eq_refl eq_refl eq_refl eq_refl).
Defined.

(** X17 at a concrete request: a timestamp of 42, asked at 61500 ms and at
    0 ms. *)
Lemma ask_with_timestamp_ignores_the_clock_witness :
  (getProp askAtBody "timestamp" = Some (JNum (NumInt 42))
   /\ truthy (JNum (NumInt 42)) = true
   /\ now (askEnv (lit "ok")) = 61500%Z
   /\ now (atClock 0 (askEnv (lit "ok"))) = 0%Z)
  /\ handle Ask (atClock 0 (askEnv (lit "ok"))) askAtBody initial
     = handle Ask (askEnv (lit "ok")) askAtBody initial.
Proof.
  split; [repeat split|].
  exact (ask_with_timestamp_ignores_the_clock (askEnv (lit "ok")) 0 askAtBody
           (JNum (NumInt 42)) initial eq_refl eq_refl).
Defined.

End MoreRuns.
